(** * auto_empirical: the helpers of [src/helpers.py]

    A shallow embedding of the two subsystems of [helpers.py] that carry
    control flow: the robust CSV loader ([read_csv_robust]) and the
    bootstrap statistics ([bootstrap_mean], [pretty_print_desc_stats]).

    The functions of the file are embedded as Rocq functions.  What they
    call from pandas, chardet, numpy and scipy is not part of the
    repository: the loader sees it through a [World] record, the
    statistics through the type classes [Float64] and [SciPy], so every
    general theorem holds for any implementation of these libraries.  A
    reference instance on IEEE-754 binary64 numbers (Rocq's primitive
    floats) is used to run the functions on concrete inputs. *)

From Stdlib Require Import ZArith List String Ascii Strings.Byte Bool Lia.
From Stdlib Require Import DecimalString Floats.
Import ListNotations.
Local Open Scope string_scope.
Local Open Scope Z_scope.

(* ================================================================== *)
(** ** Python values shared by both subsystems *)

Module Py.

(** The exception classes that occur in [helpers.py] or are raised by
    the library calls it makes.  Only classes derived from [Exception]
    are modelled, so every one of them is caught by [except Exception]. *)
Inductive exc_class : Type :=
| ValueError | TypeError | IndexError | OverflowError | LookupError
| OSError | FileNotFoundError | UnicodeDecodeError | ParserError.

(** An exception instance: its class and [str(e)], the text of its
    argument.  (The implicit [__context__] link Python sets on an
    exception raised inside a handler is not part of the value.) *)
Record exn : Type := mk_exn { exn_class : exc_class; exn_msg : string }.

(** The outcome of a call: a value, or a raised exception. *)
Inductive result (A : Type) : Type :=
| Ok (a : A)
| Raise (e : exn).
Arguments Ok {A} a.
Arguments Raise {A} e.

Definition is_ok {A} (r : result A) : bool :=
  match r with Ok _ => true | Raise _ => false end.

Definition raised {A} (r : result A) : Prop :=
  exists e, r = Raise e.

(** [str(x)] for an optional string: [None] prints as [None]. *)
Definition str_opt (o : option string) : string :=
  match o with Some s => s | None => "None" end.

(** [str(k)] for a Python int. *)
Definition str_int (k : Z) : string := NilZero.string_of_int (Z.to_int k).

(** [sub in s] on strings. *)
Fixpoint is_infix (sub s : string) : bool :=
  if String.prefix sub s then true
  else match s with
       | EmptyString => false
       | String _ rest => is_infix sub rest
       end.

End Py.
Import Py.

(* ================================================================== *)
(** ** DATA WRANGLING: [read_csv_robust] *)

Module Loader.

(** A parsed table: rows of cells (the header row first). *)
Definition Table : Type := list (list string).

(** The [on_bad_lines] option of [pandas.read_csv]. *)
Inductive bad_lines : Type := BadError | BadWarn | BadSkip.

(** The arguments [read_csv_robust] passes to [pandas.read_csv]. *)
Record ReadCsvCall : Type := mk_call {
  rc_path : string;
  rc_encoding : option string;
  rc_on_bad_lines : bad_lines;
  rc_sep : string
}.

(** [pd.read_csv(file_path, encoding=..., on_bad_lines='skip', sep=sep)] *)
Definition read_call (file_path sep : string) (encoding : option string)
  : ReadCsvCall :=
  mk_call file_path encoding BadSkip sep.

(** What lies outside the function: the file system, chardet and
    pandas.  [fs_open_rb] is the content of the file at a path, or the
    error [open(path, 'rb')] raises. *)
Record World : Type := mk_world {
  fs_open_rb : string -> result (list byte);
  chardet_detect : list byte -> option string;
  pd_read_csv : ReadCsvCall -> result Table
}.

(** The observable steps of one run, in order. *)
Inductive event : Type :=
| EvOpen (path : string)
| EvReadCsv (c : ReadCsvCall)
| EvPrint (line : string).

(** A computation that logs its events and returns or raises. *)
Definition IO (A : Type) : Type := (list event * result A)%type.

Definition ret {A} (a : A) : IO A := ([], Ok a).

Definition raise {A} (e : exn) : IO A := ([], Raise e).

Definition bind {A B} (m : IO A) (f : A -> IO B) : IO B :=
  match m with
  | (t, Ok a) => let (t', r) := f a in ((t ++ t')%list, r)
  | (t, Raise e) => (t, Raise e)
  end.

(** [try: m  except Exception as e: h e] *)
Definition try_except {A} (m : IO A) (h : exn -> IO A) : IO A :=
  match m with
  | (t, Ok a) => (t, Ok a)
  | (t, Raise e) => let (t', r) := h e in ((t ++ t')%list, r)
  end.

Notation "x <- m ;; k" := (bind m (fun x => k))
  (at level 61, m at next level, right associativity).
Notation "m ;;; k" := (bind m (fun _ => k))
  (at level 61, right associativity).

Definition print (line : string) : IO unit := ([EvPrint line], Ok tt).

Definition read_csv (w : World) (c : ReadCsvCall) : IO Table :=
  ([EvReadCsv c], pd_read_csv w c).

(** [file.read(num_bytes)]: at most [num_bytes] bytes, the whole file
    when [num_bytes] is negative. *)
Definition file_read (content : list byte) (num_bytes : Z) : list byte :=
  if num_bytes <? 0 then content else firstn (Z.to_nat num_bytes) content.

(** The inner function [detect_encoding] of [read_csv_robust]. *)
Definition detect_encoding (w : World) (file_path : string) (num_bytes : Z)
  : IO (option string) :=
  match fs_open_rb w file_path with
  | Raise e => ([EvOpen file_path], Raise e)
  | Ok content =>
      let rawdata := file_read content num_bytes in
      ([EvOpen file_path], Ok (chardet_detect w rawdata))
  end.

Definition all_attempts_failed : exn :=
  mk_exn ValueError
    "All attempts failed. Please check the file for issues beyond encoding.".

Definition read_csv_robust (w : World) (file_path sep : string) (num_bytes : Z)
  : IO Table :=
  encoding_detected <- detect_encoding w file_path num_bytes ;;
  try_except
    (df <- read_csv w (read_call file_path sep encoding_detected) ;;
     print ("File read successfully with encoding: " ++ str_opt encoding_detected) ;;;
     ret df)
    (fun e =>
       print ("Failed to read with detected encoding "
              ++ str_opt encoding_detected ++ ". Error: " ++ exn_msg e) ;;;
       try_except
         (print "Attempting to read with UTF-8..." ;;;
          df <- read_csv w (read_call file_path sep (Some "utf-8")) ;;
          print "File read successfully with UTF-8." ;;;
          ret df)
         (fun e =>
            print ("Failed to read with UTF-8. Error: " ++ exn_msg e) ;;;
            try_except
              (print "Attempting to read with ISO-8859-1..." ;;;
               df <- read_csv w (read_call file_path sep (Some "ISO-8859-1")) ;;
               print "File read successfully with ISO-8859-1." ;;;
               ret df)
              (fun e =>
                 print ("Failed to read with ISO-8859-1. Error: " ++ exn_msg e) ;;;
                 raise all_attempts_failed))).




(** *** A concrete world: two small files *)

Definition is_ascii (b : byte) : bool := (Byte.to_N b <? 128)%N.

(** chardet on a prefix: no guess for no byte, ascii when every byte is
    ascii, a single-byte code page otherwise. *)
Definition guess_encoding (prefix : list byte) : option string :=
  match prefix with
  | [] => None
  | _ => if forallb is_ascii prefix then Some "ascii" else Some "Windows-1252"
  end.

(** [survey.csv]: the line [name], then a line that opens a quote it
    never closes and holds the Latin-1 byte [0xe9] at position 9. *)
Definition survey_bytes : list byte :=
  [x6e; x61; x6d; x65; x0a; x22; x63; x61; x66; xe9; x0a].

(** [menu.csv]: the line [name], then a line with the UTF-8 bytes
    [0xc3 0xa9] at positions 8 and 9. *)
Definition menu_bytes : list byte :=
  [x6e; x61; x6d; x65; x0a; x63; x61; x66; xc3; xa9; x0a].

Definition decode_error (codec byte_hex position detail : string) : exn :=
  mk_exn UnicodeDecodeError
    ("'" ++ codec ++ "' codec can't decode byte " ++ byte_hex ++ " in position "
     ++ position ++ ": " ++ detail).

Definition tokenize_error : exn :=
  mk_exn ParserError
    "Error tokenizing data. C error: EOF inside string starting at row 1".

Definition no_such_file (path : string) : exn :=
  mk_exn FileNotFoundError ("[Errno 2] No such file or directory: '" ++ path ++ "'").

(** What pandas makes of the two files: [survey.csv] decodes neither as
    ascii nor as UTF-8 and does not tokenize in a single-byte code page;
    [menu.csv] does not decode as ascii, parses as UTF-8, and parses to
    mojibake in a single-byte code page. *)
Definition parse (c : ReadCsvCall) : result Table :=
  if String.eqb (rc_path c) "survey.csv" then
    match rc_encoding c with
    | Some "ascii" => Raise (decode_error "ascii" "0xe9" "9" "ordinal not in range(128)")
    | Some "utf-8" | None =>
        Raise (decode_error "utf-8" "0xe9" "9" "invalid continuation byte")
    | _ => Raise tokenize_error
    end
  else if String.eqb (rc_path c) "menu.csv" then
    match rc_encoding c with
    | Some "ascii" => Raise (decode_error "ascii" "0xc3" "8" "ordinal not in range(128)")
    | Some "utf-8" | None => Ok [["name"]; ["caf<U+00E9>"]]
    | _ => Ok [["name"]; ["caf<U+00C3><U+00A9>"]]
    end
  else Raise (no_such_file (rc_path c)).

Definition disk : World :=
  mk_world
    (fun path =>
       if String.eqb path "survey.csv" then Ok survey_bytes
       else if String.eqb path "menu.csv" then Ok menu_bytes
       else Raise (no_such_file path))
    guess_encoding
    parse.

End Loader.

(* ================================================================== *)
(** ** STATISTICS: [bootstrap_mean] and [pretty_print_desc_stats] *)

Module Stats.

(** numpy's float64 scalars with the Python operations the code applies
    to them.  Nothing is assumed of the operations: rounding, NaN and
    the infinities are the implementation's. *)
Class Float64 : Type := {
  F : Type;
  fadd : F -> F -> F;
  fsub : F -> F -> F;
  fmul : F -> F -> F;
  fdiv : F -> F -> F;
  fsqrt : F -> F;
  fisnan : F -> bool;
  fnan : F;
  (** [float(k)] for a Python int *)
  of_int : Z -> F;
  (** [int(x)], which raises on NaN and on the infinities *)
  to_int : F -> result Z;
  (** [format(x, '.{d}f')] *)
  format_f : nat -> F -> string
}.

Section Data.
Context {fl : Float64}.

(** A sequence of scalars of one kind: numbers, or strings (the
    non-numeric case). *)
Inductive seq : Type :=
| FloatSeq (xs : list F)
| StrSeq (ss : list string).

Definition seq_len (s : seq) : nat :=
  match s with FloatSeq xs => List.length xs | StrSeq ss => List.length ss end.

(** A numpy array: its shape and its elements in row-major order. *)
Record ndarray : Type := mk_array { shape : list nat; buf : seq }.

(** The values [bootstrap_mean] can be called with. *)
Inductive pyobj : Type :=
| PdSeries (values : seq)
| PyList (items : seq)
| NpArray (a : ndarray)
| PyOther (type_name : string).

(** [scipy.stats.bootstrap]'s [method] and [random_state] arguments. *)
Inductive method : Type := Percentile | Basic | BCa.

Inductive random_state : Type :=
| SeedNone
| SeedInt (seed : Z).

(** The keyword arguments of one call of [scipy.stats.bootstrap]. *)
Record BootstrapArgs : Type := mk_args {
  b_data : ndarray;
  b_statistic : ndarray -> result F;
  b_n_resamples : Z;
  b_random_state : random_state;
  b_confidence_level : F;
  b_method : method
}.

Record ConfidenceInterval : Type := mk_ci { low : F; high : F }.

(** The dict [bootstrap_mean] returns, keys 'mean', 'lower', 'upper'. *)
Record BootstrapResult : Type := mk_result { mean : F; lower : F; upper : F }.

End Data.

(** What numpy and scipy provide beyond scalar arithmetic.  The random
    generator is numpy's: [RandomState seed] builds a fresh generator,
    [randint st n rows cols] draws a [rows] x [cols] matrix of indices
    below [n] and returns the advanced generator. *)
Class SciPy (fl : Float64) : Type := {
  np_median_f : list F -> F;
  np_percentile : list F -> F -> result F;
  rng_state : Type;
  RandomState : Z -> result rng_state;
  randint : rng_state -> nat -> nat -> nat -> list (list nat) * rng_state;
  (** scipy's validation of the arguments of [bootstrap] *)
  bootstrap_iv : ndarray -> Z -> F -> result unit;
  (** the two adjusted levels of the BCa interval *)
  bca_interval : (ndarray -> result F) -> ndarray -> list F -> F -> result (F * F)
}.

Section Model.
Context {fl : Float64} {sp : SciPy fl}.

(** *** Computations over numpy's global generator *)

(** A computation reads and may advance the process-wide generator
    (the one [np.random.seed(42)] seeds at import), and returns or
    raises. *)
Definition M (A : Type) : Type := rng_state -> result A * rng_state.

Definition mret {A} (a : A) : M A := fun g => (Ok a, g).

Definition mraise {A} (e : exn) : M A := fun g => (Raise e, g).

Definition lift {A} (r : result A) : M A := fun g => (r, g).

Definition mbind {A B} (m : M A) (f : A -> M B) : M B :=
  fun g => match m g with
           | (Ok a, g') => f a g'
           | (Raise e, g') => (Raise e, g')
           end.

(** A computation that neither reads nor advances the global
    generator: its outcome is fixed, and the state is left as found. *)
Definition ignores_global {A} (m : M A) : Prop :=
  exists r, forall g, m g = (r, g).

Definition rbind {A B} (r : result A) (f : A -> result B) : result B :=
  match r with Ok a => f a | Raise e => Raise e end.

Fixpoint map_result {A B} (f : A -> result B) (l : list A) : result (list B) :=
  match l with
  | [] => Ok []
  | x :: t => rbind (f x) (fun y => rbind (map_result f t) (fun ys => Ok (y :: ys)))
  end.

Notation "x <- m ;; k" := (mbind m (fun x => k))
  (at level 61, m at next level, right associativity).
Notation "x <-? r ;; k" := (rbind r (fun x => k))
  (at level 61, r at next level, right associativity).

(** *** numpy *)

(** [np.array(items)] for a flat list, and [Series.to_numpy()]. *)
Definition np_array (items : seq) : ndarray := mk_array [seq_len items] items.

Definition Series_to_numpy (values : seq) : ndarray := mk_array [seq_len values] values.

(** [a.size], the number of elements. *)
Definition size (a : ndarray) : nat := seq_len (buf a).

(** [a.ravel()]: the same elements as a one-dimensional array. *)
Definition ravel (a : ndarray) : ndarray := mk_array [size a] (buf a).

(** What numpy raises when it is asked to add strings. *)
Definition flexible_type : exn :=
  mk_exn TypeError "cannot perform reduce with flexible type".

(** [np.add.reduce]: the first element is the initial value; the sum
    of no element is 0.0.  (numpy adds long arrays pairwise; the order
    of the additions is left to right here.) *)
Definition np_sum (xs : list F) : F :=
  match xs with
  | [] => of_int 0
  | x :: t => fold_left fadd t x
  end.

Definition count (xs : list F) : Z := Z.of_nat (List.length xs).

Definition mean_f (xs : list F) : F := fdiv (np_sum xs) (of_int (count xs)).

(** The sum of the squared deviations from the mean. *)
Definition sum_sq_dev (xs : list F) : F :=
  let arrmean := mean_f xs in
  np_sum (map (fun x => let d := fsub x arrmean in fmul d d) xs).

(** numpy's [_var] followed by the square root: the divisor is
    [max(n - ddof, 0)]. *)
Definition std_f (xs : list F) (ddof : Z) : F :=
  let rcount := Z.max (count xs - ddof) 0 in
  fsqrt (fdiv (sum_sq_dev xs) (of_int rcount)).

Definition np_mean (a : ndarray) : result F :=
  match buf a with
  | FloatSeq xs => Ok (mean_f xs)
  | StrSeq _ => Raise flexible_type
  end.

Definition np_median (a : ndarray) : result F :=
  match buf a with
  | FloatSeq xs => Ok (np_median_f xs)
  | StrSeq _ => Raise flexible_type
  end.

Definition np_std (a : ndarray) (ddof : Z) : result F :=
  match buf a with
  | FloatSeq xs => Ok (std_f xs ddof)
  | StrSeq _ => Raise flexible_type
  end.

(** [xs[idx]] for a list of indices; [None] when one is out of range. *)
Fixpoint gather {A} (xs : list A) (idx : list nat) : option (list A) :=
  match idx with
  | [] => Some []
  | i :: rest =>
      match nth_error xs i, gather xs rest with
      | Some x, Some ys => Some (x :: ys)
      | _, _ => None
      end
  end.

Definition index_error : exn := mk_exn IndexError "index out of bounds".

(** [a[idx]]: one resample of a one-dimensional array. *)
Definition take (a : ndarray) (idx : list nat) : result ndarray :=
  match buf a with
  | FloatSeq xs =>
      match gather xs idx with
      | Some ys => Ok (mk_array [List.length idx] (FloatSeq ys))
      | None => Raise index_error
      end
  | StrSeq ss =>
      match gather ss idx with
      | Some ys => Ok (mk_array [List.length idx] (StrSeq ys))
      | None => Raise index_error
      end
  end.

(** *** scipy.stats.bootstrap

    scipy is not part of the repository.  The model follows the
    algorithm of [scipy.stats.bootstrap] for one sample and the
    two-sided interval: validate the arguments, draw [n_resamples]
    resamples of the size of the sample with the generator
    [random_state] selects, apply the statistic to each, and read the
    bounds off the resulting distribution at the levels the [method]
    gives. *)

(** [method] when the caller does not pass one. *)
Definition default_method : method := BCa.

(** [check_random_state] and the draw: [None] is numpy's global
    generator, which the draw advances; an int seeds a generator of
    the call's own and leaves the global one alone. *)
Definition draw_indices (rs : random_state) (rows n : nat) : M (list (list nat)) :=
  fun g =>
    match rs with
    | SeedNone => let (idx, g') := randint g n rows n in (Ok idx, g')
    | SeedInt seed =>
        match RandomState seed with
        | Ok st => (Ok (fst (randint st n rows n)), g)
        | Raise e => (Raise e, g)
        end
    end.

(** The bootstrap distribution [theta_hat_b]: the statistic of each
    resample. *)
Definition bootstrap_distribution (a : BootstrapArgs) : M (list F) :=
  _ <- lift (bootstrap_iv (b_data a) (b_n_resamples a) (b_confidence_level a)) ;;
  idx <- draw_indices (b_random_state a) (Z.to_nat (b_n_resamples a)) (size (b_data a)) ;;
  resamples <- lift (map_result (take (b_data a)) idx) ;;
  lift (map_result (b_statistic a) resamples).

(** [alpha = (1 - confidence_level)/2] *)
Definition tail_level (confidence_level : F) : F :=
  fdiv (fsub (of_int 1) confidence_level) (of_int 2).

(** [_percentile_along_axis], which BCa uses: NaN for a NaN level. *)
Definition percentile_along_axis (theta_hat_b : list F) (q : F) : result F :=
  if fisnan q then Ok fnan else np_percentile theta_hat_b q.

Definition confidence_interval (a : BootstrapArgs) (theta_hat_b : list F)
  : result ConfidenceInterval :=
  let alpha := tail_level (b_confidence_level a) in
  match b_method a with
  | BCa =>
      interval <-? bca_interval (b_statistic a) (b_data a) theta_hat_b alpha ;;
      ci_l <-? percentile_along_axis theta_hat_b (fmul (fst interval) (of_int 100)) ;;
      ci_u <-? percentile_along_axis theta_hat_b (fmul (snd interval) (of_int 100)) ;;
      Ok (mk_ci ci_l ci_u)
  | Percentile =>
      ci_l <-? np_percentile theta_hat_b (fmul alpha (of_int 100)) ;;
      ci_u <-? np_percentile theta_hat_b (fmul (fsub (of_int 1) alpha) (of_int 100)) ;;
      Ok (mk_ci ci_l ci_u)
  | Basic =>
      ci_l <-? np_percentile theta_hat_b (fmul alpha (of_int 100)) ;;
      ci_u <-? np_percentile theta_hat_b (fmul (fsub (of_int 1) alpha) (of_int 100)) ;;
      theta_hat <-? b_statistic a (b_data a) ;;
      Ok (mk_ci (fsub (fmul (of_int 2) theta_hat) ci_u)
                (fsub (fmul (of_int 2) theta_hat) ci_l))
  end.

Definition bootstrap (a : BootstrapArgs) : M ConfidenceInterval :=
  theta_hat_b <- bootstrap_distribution a ;;
  lift (confidence_interval a theta_hat_b).

(** *** helpers.py *)

(** The call of [bootstrap] in [pretty_print_desc_stats] (no [method]
    is passed). *)
Definition desc_stats_bootstrap_args (data : ndarray) (n_bootstrap : Z)
    (seed : Z) (ci_level : F) : BootstrapArgs :=
  mk_args data np_mean n_bootstrap (SeedInt seed) ci_level default_method.

Definition pretty_print_desc_stats (data : seq) (n_bootstrap : Z) (ci : bool)
    (ci_level : F) (n_digits : nat) (seed : Z) : M string :=
  let data := np_array data in
  mean <- lift (np_mean data) ;;
  median <- lift (np_median data) ;;
  sd <- lift (np_std data 1) ;;
  ci_str <-
    (if ci then
       bootstrap_results <-
         bootstrap (desc_stats_bootstrap_args data n_bootstrap seed ci_level) ;;
       let ci_lower := low bootstrap_results in
       let ci_upper := high bootstrap_results in
       percent <- lift (to_int (fmul ci_level (of_int 100))) ;;
       mret (", " ++ str_int percent ++ "\% \text{CI} = ["
             ++ format_f n_digits ci_lower ++ ", "
             ++ format_f n_digits ci_upper ++ "]")
     else mret "") ;;
  let mean_str := format_f n_digits mean in
  let median_str := format_f n_digits median in
  let sd_str := format_f n_digits sd in
  let latex_string :=
    "$M = " ++ mean_str ++ ", Mdn = " ++ median_str ++ ", SD = " ++ sd_str
    ++ ci_str ++ "$" in
  mret latex_string.

(** The call of [bootstrap] in [bootstrap_mean]. *)
Definition bootstrap_mean_args (data : ndarray) (n_bootstrap : Z)
    (seed : Z) (ci : F) : BootstrapArgs :=
  mk_args data np_mean n_bootstrap (SeedInt seed) (fdiv ci (of_int 100)) Percentile.

(** The conversion at the head of [bootstrap_mean]. *)
Definition to_ndarray (data : pyobj) : result ndarray :=
  match data with
  | PdSeries values => Ok (Series_to_numpy values)
  | PyList items => Ok (np_array items)
  | NpArray a => Ok a
  | PyOther _ =>
      Raise (mk_exn ValueError
               "Input data must be a Pandas Series, list, or numpy array")
  end.

Definition bootstrap_mean (data : pyobj) (n_bootstrap : Z) (ci : F) (seed : Z)
  : M BootstrapResult :=
  data <- lift (to_ndarray data) ;;
  if (size data =? 0)%nat then mraise (mk_exn ValueError "Input data is empty")
  else
    let data := ravel data in
    data_mean <- lift (np_mean data) ;;
    result <- bootstrap (bootstrap_mean_args data n_bootstrap seed ci) ;;
    mret (mk_result data_mean (low result) (high result)).

End Model.

End Stats.

(* ================================================================== *)
(** ** A reference implementation of the libraries

    IEEE-754 binary64 arithmetic (Rocq's primitive floats), Python's
    conversions between floats, ints and text, numpy's median and linear
    percentile.  The generator is a small linear congruential one that
    stands in for numpy's Mersenne Twister: the general theorems hold
    for every generator, and the bounds of the concrete runs below are
    those of this one. *)

Module IEEE.
Import Stats.
Local Open Scope float_scope.

(** [float(k)]: exact for [|k| < 2^53]. *)
Definition float_of_Z (k : Z) : float :=
  if (k <? 0)%Z then - PrimFloat.of_uint63 (Uint63.of_Z (- k))
  else PrimFloat.of_uint63 (Uint63.of_Z k).

(** The integer part of a finite float, toward zero. *)
Definition trunc (x : float) : option Z :=
  match Prim2SF x with
  | S754_zero _ => Some 0%Z
  | S754_finite s m e =>
      let a := (if 0 <=? e then Z.pos m * 2 ^ e else Z.pos m / 2 ^ (- e))%Z in
      Some (if s then (- a)%Z else a)
  | S754_infinity _ | S754_nan => None
  end.

(** [int(x)] *)
Definition int_of_float (x : float) : result Z :=
  match trunc x with
  | Some k => Ok k
  | None =>
      if PrimFloat.is_nan x
      then Raise (mk_exn ValueError "cannot convert float NaN to integer")
      else Raise (mk_exn OverflowError "cannot convert float infinity to integer")
  end.

(** [p / q] rounded to the nearest integer, ties to even ([0 < q]). *)
Definition round_half_even (p q : Z) : Z :=
  let f := (p / q)%Z in
  match (2 * (p mod q) ?= q)%Z with
  | Lt => f
  | Gt => (f + 1)%Z
  | Eq => if Z.even f then f else (f + 1)%Z
  end.

Fixpoint zeros (n : nat) : string :=
  match n with O => EmptyString | S n' => String "0" (zeros n') end.

(** [k / 10^d] written with exactly [d] decimals ([0 <= k]). *)
Definition fixed (negative : bool) (k : Z) (d : nat) : string :=
  let unit := (10 ^ Z.of_nat d)%Z in
  let frac := str_int (k mod unit) in
  ((if negative then "-" else "") ++ str_int (k / unit)
   ++ match d with
      | O => ""
      | _ => "." ++ zeros (d - String.length frac) ++ frac
      end)%string.

(** [format(x, '.{d}f')]: the exact binary value, correctly rounded. *)
Definition format_float (d : nat) (x : float) : string :=
  match Prim2SF x with
  | S754_nan => "nan"%string
  | S754_infinity s => if s then "-inf"%string else "inf"%string
  | S754_zero s => fixed s 0 d
  | S754_finite s m e =>
      let p := (Z.pos m * 10 ^ Z.of_nat d)%Z in
      fixed s (if (0 <=? e)%Z then p * 2 ^ e else round_half_even p (2 ^ (- e)))%Z d
  end.

#[export] Instance binary64 : Float64 := {|
  F := float;
  fadd := PrimFloat.add;
  fsub := PrimFloat.sub;
  fmul := PrimFloat.mul;
  fdiv := PrimFloat.div;
  fsqrt := PrimFloat.sqrt;
  fisnan := PrimFloat.is_nan;
  fnan := PrimFloat.nan;
  of_int := float_of_Z;
  to_int := int_of_float;
  format_f := format_float
|}.

Fixpoint insert (x : float) (l : list float) : list float :=
  match l with
  | [] => [x]
  | y :: t => if x <=? y then x :: l else y :: insert x t
  end.

Definition sort (l : list float) : list float := fold_right insert [] l.

(** [np.median]: NaN when an element is NaN or the array is empty. *)
Definition median (xs : list float) : float :=
  if existsb PrimFloat.is_nan xs then nan
  else
    let s := sort xs in
    let n := List.length xs in
    match n with
    | O => nan
    | _ =>
        if Nat.even n
        then (nth (n / 2 - 1) s nan + nth (n / 2) s nan) / 2
        else nth (n / 2) s nan
    end.

Definition bad_percentile : exn :=
  mk_exn ValueError "Percentiles must be in the range [0, 100]".

(** [np.percentile(xs, q)] with the default linear interpolation. *)
Definition percentile (xs : list float) (q : float) : result float :=
  if (0 <=? q) && (q <=? 100) then
    if existsb PrimFloat.is_nan xs then Ok nan
    else
      let s := sort xs in
      match List.length xs with
      | O => Ok nan
      | S n1 =>
          let virtual := float_of_Z (Z.of_nat n1) * (q / 100) in
          let previous := match trunc virtual with Some k => Z.to_nat k | None => O end in
          let gamma := virtual - float_of_Z (Z.of_nat previous) in
          let a := nth previous s nan in
          let b := nth (Nat.min (S previous) n1) s nan in
          Ok (if a =? b then a
              else if 0.5 <=? gamma then b - (b - a) * (1 - gamma)
              else a + (b - a) * gamma)
      end
  else Raise bad_percentile.

Definition lcg_next (st : Z) : Z := ((st * 1103515245 + 12345) mod 2 ^ 31)%Z.

Fixpoint lcg_row (st : Z) (n cols : nat) : list nat * Z :=
  match cols with
  | O => ([], st)
  | S c =>
      let st' := lcg_next st in
      let (r, st'') := lcg_row st' n c in
      (Z.to_nat ((st' / 65536) mod Z.of_nat n) :: r, st'')
  end.

Fixpoint lcg_matrix (st : Z) (n rows cols : nat) : list (list nat) * Z :=
  match rows with
  | O => ([], st)
  | S r =>
      let (row, st') := lcg_row st n cols in
      let (m, st'') := lcg_matrix st' n r cols in
      (row :: m, st'')
  end.

(** [np.random.RandomState(seed)] accepts seeds of 32 bits. *)
Definition seed_generator (seed : Z) : result Z :=
  if ((0 <=? seed) && (seed <? 2 ^ 32))%Z then Ok seed
  else Raise (mk_exn ValueError "Seed must be between 0 and 2**32 - 1").

(** The checks of scipy's [_bootstrap_iv] that concern the sample and
    the number of resamples. *)
Definition validate (a : ndarray) (n_resamples : Z) (confidence_level : float)
  : result unit :=
  if (size a <=? 1)%nat then
    Raise (mk_exn ValueError
      "each sample in `data` must contain two or more observations along `axis`.")
  else if (n_resamples <? 0)%Z then
    Raise (mk_exn ValueError "`n_resamples` must be a non-negative integer.")
  else Ok tt.

(** BCa's adjusted levels need the normal distribution function and its
    inverse, which binary64 arithmetic alone does not provide: this
    instance returns the NaN levels scipy reports for a degenerate
    distribution.  No statement below evaluates it. *)
Definition degenerate_levels (statistic : ndarray -> result float) (a : ndarray)
    (theta_hat_b : list float) (alpha : float) : result (float * float) :=
  Ok (nan, nan).

#[export] Instance reference : SciPy binary64 := {|
  np_median_f := median;
  np_percentile := percentile;
  rng_state := Z;
  RandomState := seed_generator;
  randint := lcg_matrix;
  bootstrap_iv := validate;
  bca_interval := degenerate_levels
|}.

(** The same libraries with a generator that draws index 0 every time,
    so that every resample repeats the first element of the sample. *)
Definition zero_draws (st : Z) (n rows cols : nat) : list (list nat) * Z :=
  (repeat (repeat 0%nat cols) rows, st).

Definition stuck_generator : SciPy binary64 := {|
  np_median_f := median;
  np_percentile := percentile;
  rng_state := Z;
  RandomState := seed_generator;
  randint := zero_draws;
  bootstrap_iv := validate;
  bca_interval := degenerate_levels
|}.

(** The level 0.95 of the default arguments. *)
Definition level : float := 95 / 100.

(** The sample of the concrete runs, and what [bootstrap_mean] returns
    on it with 200 resamples, level 95 and seed 42: mean 3, bounds 1.8
    and 4.4 (written as exact binary64 numbers). *)
Definition one_to_five : seq := FloatSeq (fl := binary64) [1; 2; 3; 4; 5].

Definition result_200 : BootstrapResult :=
  mk_result 3 0x1.ccccccccccccdp+0 0x1.199999999999ap+2.

(** The state of the global generator after [np.random.seed(42)]. *)
Definition after_import : @rng_state binary64 reference := 42%Z.

End IEEE.

(* ================================================================== *)
(** ** Python text: the [str] methods and the regular expression that
    [clean_vars] and [stargazer2latex] use

    Text is a string of ASCII characters ([ascii_text]); on such text a
    Python [str] and its bytes coincide, and the cased characters are
    the 52 letters. *)

Module Text.
Local Open Scope nat_scope.
Local Open Scope string_scope.

Definition ascii_text (s : string) : bool :=
  forallb (fun c => (N_of_ascii c <? 128)%N) (list_ascii_of_string s).

(** The character classes [[A-Z]], [[a-z]] and [[0-9]]. *)
Definition is_upper (c : ascii) : bool := Ascii.leb "A" c && Ascii.leb c "Z".

Definition is_lower (c : ascii) : bool := Ascii.leb "a" c && Ascii.leb c "z".

Definition is_digit (c : ascii) : bool := Ascii.leb "0" c && Ascii.leb c "9".

Definition is_cased (c : ascii) : bool := is_upper c || is_lower c.

Definition to_upper (c : ascii) : ascii :=
  if is_lower c then ascii_of_N (N_of_ascii c - 32) else c.

Definition to_lower (c : ascii) : ascii :=
  if is_upper c then ascii_of_N (N_of_ascii c + 32) else c.

Fixpoint map_chars (f : ascii -> ascii) (s : string) : string :=
  match s with
  | EmptyString => EmptyString
  | String c rest => String (f c) (map_chars f rest)
  end.

(** [s.lower()] and [s.upper()] *)
Definition lower (s : string) : string := map_chars to_lower s.

Definition upper (s : string) : string := map_chars to_upper s.

(** [s.title()]: a cased character is put in upper case when the
    character before it is not cased, in lower case when it is. *)
Fixpoint title_from (previous_is_cased : bool) (s : string) : string :=
  match s with
  | EmptyString => EmptyString
  | String c rest =>
      String (if previous_is_cased then to_lower c else to_upper c)
             (title_from (is_cased c) rest)
  end.

Definition title (s : string) : string := title_from false s.

(** [s.replace(old, new)] for a non-empty [old]: the occurrences of
    [old] are found from the left and do not overlap; [skip] counts the
    characters of an occurrence still to pass over. *)
Fixpoint replace_skip (old new : string) (skip : nat) (s : string) : string :=
  match s with
  | EmptyString => EmptyString
  | String c rest =>
      match skip with
      | S k => replace_skip old new k rest
      | O =>
          if String.prefix old s
          then new ++ replace_skip old new (String.length old - 1) rest
          else String c (replace_skip old new 0 rest)
      end
  end.

(** [s.replace('', new)]: [new] before every character and at the end. *)
Fixpoint intersperse (new s : string) : string :=
  match s with
  | EmptyString => new
  | String c rest => new ++ String c (intersperse new rest)
  end.

Definition replace (old new s : string) : string :=
  match old with
  | EmptyString => intersperse new s
  | String _ _ => replace_skip old new 0 s
  end.

(** [s.split(sep)] for a separator of one character: never an empty
    list. *)
Fixpoint split_on (sep : ascii) (s : string) : list string :=
  match s with
  | EmptyString => [EmptyString]
  | String c rest =>
      if Ascii.eqb c sep then EmptyString :: split_on sep rest
      else match split_on sep rest with
           | field :: fields => String c field :: fields
           | [] => [String c EmptyString]
           end
  end.

(** [fields[-1]] *)
Definition last_field (fields : list string) : string := last fields EmptyString.

(** [re.sub('([a-z0-9])([A-Z])', r'\1 \2', s)]: a space between a lower
    case letter or digit and the upper case letter that follows it; the
    search goes on after the two characters of a match. *)
Fixpoint sub_camel (s : string) : string :=
  match s with
  | EmptyString => EmptyString
  | String c rest =>
      match rest with
      | EmptyString => String c EmptyString
      | String d rest' =>
          if (is_lower c || is_digit c) && is_upper d
          then String c (String " " (String d (sub_camel rest')))
          else String c (sub_camel rest)
      end
  end.

(** [c in s] for a character. *)
Fixpoint has_char (c : ascii) (s : string) : bool :=
  match s with
  | EmptyString => false
  | String d rest => Ascii.eqb d c || has_char c rest
  end.

(** The places where [sub_camel] puts a space. *)
Fixpoint camel_boundaries (s : string) : nat :=
  match s with
  | EmptyString => O
  | String c rest =>
      match rest with
      | String d _ =>
          if (is_lower c || is_digit c) && is_upper d then S (camel_boundaries rest)
          else camel_boundaries rest
      | EmptyString => O
      end
  end.

(** What is left of a text when case and the separators [' '] and ['_']
    are disregarded. *)
Fixpoint letters (s : string) : string :=
  match s with
  | EmptyString => EmptyString
  | String c rest =>
      if Ascii.eqb c " " || Ascii.eqb c "_" then letters rest
      else String (to_lower c) (letters rest)
  end.

End Text.

(* ================================================================== *)
(** ** DATA WRANGLING: [clean_vars] *)

Module Cleaning.
Local Open Scope nat_scope.
Local Open Scope string_scope.
Import Text.

(** What a call comes to: a returned value ([None] when the function
    falls off its end), or a failed [assert]. *)
Inductive outcome : Type :=
| Returns (value : option string)
| AssertionError (message : string).

Definition options : list string := ["title"; "lowercase"; "uppercase"].

Definition clean_vars (s how : string) : outcome :=
  if existsb (String.eqb how) options then
    let s := sub_camel s in
    let s := replace "_" " " s in
    if String.eqb how "title" then Returns (Some (title s))
    else if String.eqb how "lower" then Returns (Some (lower s))
    else if String.eqb how "upper" then Returns (Some (upper s))
    else Returns None
  else AssertionError "Bad option!! see docs".

End Cleaning.

(* ================================================================== *)
(** ** LATEX: [stargazer2latex] *)

Module Latex.
Local Open Scope nat_scope.
Local Open Scope string_scope.
Import Text.

(** The Stargazer object, as far as the function uses it.  The package
    is not part of the repository: its object is a type with the reads,
    the method calls and the attribute assignment the function makes. *)
Class StargazerPkg : Type := {
  Star : Type;
  (** the attribute [star.title_text] *)
  title_text : Star -> option string;
  (** [star.title(text)] *)
  set_title : string -> Star -> Star;
  (** [star.show_confidence_intervals(show)] *)
  show_confidence_intervals : bool -> Star -> Star;
  (** [star.table_label = label] *)
  set_table_label : string -> Star -> Star;
  (** [star.render_latex()] *)
  render_latex : Star -> string;
  (** [str(star)] *)
  str_star : Star -> string
}.

(** The observable steps of one run, in order. *)
Inductive event : Type :=
| EvPrint (line : string)
| EvShowCI (show : bool)
| EvTitle (text : string)
| EvLabel (label : string)
| EvRender
| EvOpenW (path : string)
| EvWrite (path content : string).

Section Runs.
Context {pkg : StargazerPkg}.

(** One run: its steps, the object as the run leaves it (the caller's
    object is the one mutated), and the returned object or the error. *)
Record Run : Type := mk_run {
  trace : list event;
  star_after : Star;
  returned : result Star
}.

Definition default_title : string := "OLS regressions of additions and removals.".

Definition ci_note : string := " 95\% CIs in parentheses.".

(** [x if x else default] for an optional string: [None] and the empty
    string are false. *)
Definition or_default (x : option string) (default : string) : string :=
  match x with
  | Some (String c rest) => String c rest
  | Some EmptyString | None => default
  end.

(** [filename.split("/")[-1].replace(".tex", "")] *)
Definition table_label_of (filename : string) : string :=
  replace ".tex" "" (last_field (split_on "/" filename)).

(** [rendered.replace("_", "")] and then [.replace("T.", "")] *)
Definition strip_latex (rendered : string) : string :=
  replace "T." "" (replace "_" "" rendered).

(** [open_w path] is what [open(path, "w")] comes to. *)
Definition stargazer2latex (open_w : string -> result unit) (star : Star)
    (filename : string) (add_ci display_mod : bool) : Run :=
  let started :=
    EvPrint ("Starting to process the Stargazer object for " ++ filename)
    :: (if display_mod then [EvPrint (str_star star)] else []) in
  let base_title := or_default (title_text star) default_title in
  let star1 := if add_ci then show_confidence_intervals true star else star in
  let ci_string := if add_ci then ci_note else "" in
  let star2 := set_title (base_title ++ ci_string) star1 in
  let table_label := table_label_of filename in
  let star3 := set_table_label table_label star2 in
  let latex_content := strip_latex (render_latex star3) in
  let prepared :=
    (started
     ++ (if add_ci then [EvShowCI true] else [])
     ++ [EvTitle (base_title ++ ci_string); EvLabel table_label; EvRender;
         EvOpenW filename])%list in
  match open_w filename with
  | Raise e => mk_run prepared star3 (Raise e)
  | Ok _ =>
      mk_run (prepared
              ++ [EvWrite filename latex_content;
                  EvPrint ("Processed LaTeX saved to " ++ filename)])%list
             star3 (Ok star3)
  end.

(** The text files the run wrote. *)
Fixpoint written (t : list event) : list (string * string) :=
  match t with
  | [] => []
  | EvWrite path content :: t' => (path, content) :: written t'
  | _ :: t' => written t'
  end.

End Runs.

(** A Stargazer object reduced to the three attributes the function
    touches, rendered as a title line, a label line and a fixed body. *)
Record plain_star : Type := mk_star {
  plain_title : option string;
  plain_ci : bool;
  plain_label : option string
}.

Definition plain_render (s : plain_star) : string :=
  "\caption{" ++ match plain_title s with Some t => t | None => "" end ++ "}"
  ++ "\label{" ++ match plain_label s with Some l => l | None => "" end ++ "}"
  ++ " PromptType[T.B] & is_constrained".

Definition plain : StargazerPkg := {|
  Star := plain_star;
  title_text := plain_title;
  set_title := fun t s => mk_star (Some t) (plain_ci s) (plain_label s);
  show_confidence_intervals := fun b s => mk_star (plain_title s) b (plain_label s);
  set_table_label := fun l s => mk_star (plain_title s) (plain_ci s) (Some l);
  render_latex := plain_render;
  str_star := plain_render
|}.

Definition always_writable (path : string) : result unit := Ok tt.

End Latex.

(* ================================================================== *)
(** ** Reading the trace of the loader *)

Module Calls.
Local Open Scope nat_scope.
Local Open Scope string_scope.
Import Loader.

(** The calls of [pandas.read_csv], in order. *)
Fixpoint calls (t : list event) : list ReadCsvCall :=
  match t with
  | [] => []
  | EvReadCsv c :: t' => c :: calls t'
  | _ :: t' => calls t'
  end.

End Calls.

(* ================================================================== *)
(** ** LATEX: [statsmodels2latex] *)

Module Regression.
Local Open Scope nat_scope.
Local Open Scope string_scope.
Import Stats Text.

(** What the function needs of floats beyond [Float64]: the comparison
    [p < 0.001] with the literal [0.001], and [format(x, '.{d}e')]. *)
Class FloatText (fl : Float64) : Type := {
  flt : F -> F -> bool;
  one_thousandth : F;
  format_e : nat -> F -> string
}.

Section Runs.
Context {fl : Float64} {ft : FloatText fl}.

(** A fitted model, as far as the function looks at it: each of the four
    attributes may be missing.  [params] lists the parameters in the
    order [items()] yields them; the other three are looked up by
    parameter name, and a lookup can raise. *)
Record Fitted : Type := mk_fitted {
  params : option (list (string * F));
  bse : option (string -> result F);
  pvalues : option (string -> result F);
  conf_int : option (string -> result (F * F))
}.

Definition missing_methods : exn :=
  mk_exn ValueError
    "Model does not have the required methods (params, bse, pvalues, conf_int).".

(** [param_name.replace('_', '\\_')] *)
Definition safe_name (param_name : string) : string := replace "_" "\_" param_name.

Section Loop.
Variables (beta_digits se_digits p_digits ci_digits : nat) (print_sci_not : bool).

Definition p_formatted (p : F) : string :=
  if flt p one_thousandth then
    if print_sci_not then "= " ++ format_e 2 p else "<0.001"
  else "= " ++ format_f p_digits p.

Definition summary (param_name : string) (beta se p ci_lower ci_upper : F) : string :=
  safe_name param_name ++ ": $\beta = " ++ format_f beta_digits beta ++ "$, "
  ++ "$SE = " ++ format_f se_digits se ++ "$, $p " ++ p_formatted p ++ "$, "
  ++ "$95\% CI = [" ++ format_f ci_digits ci_lower ++ ", "
  ++ format_f ci_digits ci_upper ++ "]$".

(** The body of the loop for one parameter: the line to print, or the
    error of the first lookup that raises. *)
Definition line_of (errors pvals : string -> result F)
    (intervals : string -> result (F * F)) (param : string * F) : result string :=
  let (param_name, beta) := param in
  match errors param_name with
  | Raise e => Raise e
  | Ok se =>
      match pvals param_name with
      | Raise e => Raise e
      | Ok p =>
          match intervals param_name with
          | Raise e => Raise e
          | Ok (ci_lower, ci_upper) =>
              Ok (summary param_name beta se p ci_lower ci_upper)
          end
      end
  end.

(** The loop: the lines printed, and how it ends. *)
Fixpoint print_all (errors pvals : string -> result F)
    (intervals : string -> result (F * F)) (rows : list (string * F))
  : list string * result unit :=
  match rows with
  | [] => ([], Ok tt)
  | row :: rest =>
      match line_of errors pvals intervals row with
      | Raise e => ([], Raise e)
      | Ok line =>
          let (lines, r) := print_all errors pvals intervals rest in
          (line :: lines, r)
      end
  end.

(** The lines the function prints, and its outcome ([None] when it
    returns). *)
Definition statsmodels2latex (model : Fitted) : list string * result unit :=
  match params model, bse model, pvalues model, conf_int model with
  | Some rows, Some errors, Some pvals, Some intervals =>
      print_all errors pvals intervals rows
  | _, _, _, _ => ([], Raise missing_methods)
  end.

End Loop.

(** Every underscore of a text comes right after a backslash. *)
Fixpoint underscores_escaped_from (after_backslash : bool) (s : string) : bool :=
  match s with
  | EmptyString => true
  | String c rest =>
      (negb (Ascii.eqb c "_") || after_backslash)
      && underscores_escaped_from (Ascii.eqb c "\") rest
  end.

Definition underscores_escaped (s : string) : bool := underscores_escaped_from false s.

End Runs.

End Regression.

(* ================================================================== *)
(** ** The reference implementation, continued: [format(x, '.{d}e')] *)

Module IEEEText.
Local Open Scope nat_scope.
Local Open Scope string_scope.
Import Stats IEEE Regression.
Local Open Scope Z_scope.

(** The number of decimal digits of a positive integer. *)
Fixpoint count_digits (fuel : nat) (k : Z) : Z :=
  match fuel with
  | O => 0
  | S fuel' => if k <? 10 then 1 else 1 + count_digits fuel' (k / 10)
  end.

(** The least [j >= 1] with [p * 10^j >= q], for [0 < p < q]. *)
Fixpoint shift_up (fuel : nat) (p q j : Z) : Z :=
  match fuel with
  | O => j
  | S fuel' => if q <=? p * 10 ^ j then j else shift_up fuel' p q (j + 1)
  end.

(** The decimal exponent of [p / q]: the [k] with
    [10^k <= p / q < 10^(k + 1)], for positive [p] and [q]. *)
Definition decimal_exponent (p q : Z) : Z :=
  if q <=? p then count_digits 400 (p / q) - 1 else - shift_up 400 p q 1.

(** [p / q / 10^k] rounded to [d] decimals, as an integer of [d + 1]
    digits. *)
Definition significand (p q k : Z) (d : nat) : Z :=
  let shift := Z.of_nat d - k in
  if 0 <=? shift then round_half_even (p * 10 ^ shift) q
  else round_half_even p (q * 10 ^ (- shift)).

Definition exponent_text (k : Z) : string :=
  ((if (k <? 0)%Z then "-" else "+")
   ++ (if (Z.abs k <? 10)%Z then "0" else "") ++ str_int (Z.abs k))%string.

Definition scientific (negative : bool) (p q : Z) (d : nat) : string :=
  let k := decimal_exponent p q in
  let n := significand p q k d in
  let carry := 10 ^ (Z.of_nat d + 1) <=? n in
  let k' := if carry then k + 1 else k in
  let n' := if carry then n / 10 else n in
  (fixed negative n' d ++ "e" ++ exponent_text k')%string.

(** [format(x, '.{d}e')]: the exact binary value, correctly rounded. *)
Definition format_float_e (d : nat) (x : float) : string :=
  match Prim2SF x with
  | S754_nan => "nan"%string
  | S754_infinity s => if s then "-inf"%string else "inf"%string
  | S754_zero s => (fixed s 0 d ++ "e+00")%string
  | S754_finite s m e =>
      if 0 <=? e then scientific s (Z.pos m * 2 ^ e) 1 d
      else scientific s (Z.pos m) (2 ^ (- e)) d
  end.

#[export] Instance binary64_text : FloatText binary64 := {|
  flt := PrimFloat.ltb;
  one_thousandth := 0x1.0624dd2f1a9fcp-10%float;
  format_e := format_float_e
|}.

(** A fitted model with two parameters, and one whose table of standard
    errors lacks the second. *)
Definition two_rows : list (string * float) :=
  [("is_constrained", 1.5); ("Intercept", 0.25)]%float.

Definition lookup {A} (table : list (string * A)) (name : string) : result A :=
  match find (fun row => String.eqb (fst row) name) table with
  | Some row => Ok (snd row)
  | None => Raise (mk_exn LookupError name)
  end.

Definition fitted_ols : Fitted (fl := binary64) :=
  mk_fitted (Some two_rows)
    (Some (lookup [("is_constrained", 0.5); ("Intercept", 0.125)]%float))
    (Some (lookup [("is_constrained", 0x1p-11); ("Intercept", 0.25)]%float))
    (Some (lookup [("is_constrained", (0.5, 2.5)); ("Intercept", (0, 0.5))]%float)).

Definition fitted_short : Fitted (fl := binary64) :=
  mk_fitted (Some two_rows)
    (Some (lookup [("is_constrained", 0.5)]%float))
    (pvalues fitted_ols) (conf_int fitted_ols).

End IEEEText.

(* ================================================================== *)
(** ** A second concrete world for the loader *)

Module Shelf.
Local Open Scope nat_scope.
Local Open Scope string_scope.
Import Loader.





End Shelf.


(* ================================================================== *)
(** * Properties of the loader *)

Section LoaderProperties.
Import Loader.

Variables (w : World) (file_path sep : string) (num_bytes : Z).

(** The run of [read_csv_robust] on a file that opens, by the outcome
    of the three parses. *)
Lemma read_csv_robust_run (content : list byte) :
  fs_open_rb w file_path = Ok content ->
  let enc := chardet_detect w (file_read content num_bytes) in
  read_csv_robust w file_path sep num_bytes =
  match pd_read_csv w (read_call file_path sep enc) with
  | Ok df =>
      ([EvOpen file_path; EvReadCsv (read_call file_path sep enc);
        EvPrint ("File read successfully with encoding: " ++ str_opt enc)],
       Ok df)
  | Raise e1 =>
      match pd_read_csv w (read_call file_path sep (Some "utf-8")) with
      | Ok df =>
          ([EvOpen file_path; EvReadCsv (read_call file_path sep enc);
            EvPrint ("Failed to read with detected encoding " ++ str_opt enc
                     ++ ". Error: " ++ exn_msg e1);
            EvPrint "Attempting to read with UTF-8...";
            EvReadCsv (read_call file_path sep (Some "utf-8"));
            EvPrint "File read successfully with UTF-8."],
           Ok df)
      | Raise e2 =>
          match pd_read_csv w (read_call file_path sep (Some "ISO-8859-1")) with
          | Ok df =>
              ([EvOpen file_path; EvReadCsv (read_call file_path sep enc);
                EvPrint ("Failed to read with detected encoding " ++ str_opt enc
                         ++ ". Error: " ++ exn_msg e1);
                EvPrint "Attempting to read with UTF-8...";
                EvReadCsv (read_call file_path sep (Some "utf-8"));
                EvPrint ("Failed to read with UTF-8. Error: " ++ exn_msg e2);
                EvPrint "Attempting to read with ISO-8859-1...";
                EvReadCsv (read_call file_path sep (Some "ISO-8859-1"));
                EvPrint "File read successfully with ISO-8859-1."],
               Ok df)
          | Raise e3 =>
              ([EvOpen file_path; EvReadCsv (read_call file_path sep enc);
                EvPrint ("Failed to read with detected encoding " ++ str_opt enc
                         ++ ". Error: " ++ exn_msg e1);
                EvPrint "Attempting to read with UTF-8...";
                EvReadCsv (read_call file_path sep (Some "utf-8"));
                EvPrint ("Failed to read with UTF-8. Error: " ++ exn_msg e2);
                EvPrint "Attempting to read with ISO-8859-1...";
                EvReadCsv (read_call file_path sep (Some "ISO-8859-1"));
                EvPrint ("Failed to read with ISO-8859-1. Error: " ++ exn_msg e3)],
               Raise all_attempts_failed)
          end
      end
  end.
Proof.
  intros Hopen enc.
  unfold read_csv_robust, detect_encoding. rewrite Hopen. fold enc.
  unfold bind, try_except, read_csv, print, ret, raise.
  destruct (pd_read_csv w (read_call file_path sep enc)) as [df|e1]; [reflexivity|].
  destruct (pd_read_csv w (read_call file_path sep (Some "utf-8"))) as [df|e2];
    [reflexivity|].
  destruct (pd_read_csv w (read_call file_path sep (Some "ISO-8859-1"))) as [df|e3];
    reflexivity.
Qed.

(** C10. When the file cannot be opened, [read_csv_robust] raises the
    error of [open] itself: the run consists of the failed open alone,
    with no call of [pandas.read_csv], no printed line and no
    [ValueError] of its own. *)
Theorem open_error_propagates (e : exn) :
  fs_open_rb w file_path = Raise e ->
  read_csv_robust w file_path sep num_bytes = ([EvOpen file_path], Raise e).
Proof.
  intros Hopen. unfold read_csv_robust, detect_encoding. rewrite Hopen. reflexivity.
Qed.



End LoaderProperties.

(* ================================================================== *)
(** * Properties of the statistics *)

Section StatsProperties.
Import Stats.
Context {fl : Float64} {sp : SciPy fl}.

(** ** Computations that leave the global generator alone *)

Lemma ignores_lift {A} (r : result A) : ignores_global (lift r).
Proof. now exists r. Qed.

Lemma ignores_mret {A} (a : A) : ignores_global (mret a).
Proof. now exists (Ok a). Qed.

Lemma ignores_mraise {A} (e : exn) : ignores_global (mraise (A := A) e).
Proof. now exists (Raise e). Qed.

Lemma ignores_mbind {A B} (m : M A) (f : A -> M B) :
  ignores_global m -> (forall a, ignores_global (f a)) -> ignores_global (mbind m f).
Proof.
  intros [r Hm] Hf. destruct r as [a|e].
  - destruct (Hf a) as [rb Hb]. exists rb. intros g.
    unfold mbind. now rewrite Hm, Hb.
  - exists (Raise e). intros g. unfold mbind. now rewrite Hm.
Qed.

Lemma ignores_draw_seeded (seed : Z) (rows n : nat) :
  ignores_global (draw_indices (SeedInt seed) rows n).
Proof.
  unfold draw_indices. destruct (RandomState seed) as [st|e].
  - now exists (Ok (fst (randint st n rows n))).
  - now exists (Raise e).
Qed.

Create HintDb ignores discriminated.
Hint Resolve ignores_lift ignores_mret ignores_mraise ignores_draw_seeded : ignores.

Lemma ignores_bootstrap (a : BootstrapArgs) (seed : Z) :
  b_random_state a = SeedInt seed -> ignores_global (bootstrap a).
Proof.
  intros Hseed. unfold bootstrap, bootstrap_distribution. rewrite Hseed.
  repeat (apply ignores_mbind; [auto with ignores | intros ?]); auto with ignores.
Qed.

Lemma ignores_bootstrap_mean (data : pyobj) (n_bootstrap : Z) (ci : F) (seed : Z) :
  ignores_global (bootstrap_mean data n_bootstrap ci seed).
Proof.
  unfold bootstrap_mean.
  apply ignores_mbind; [auto with ignores | intros a].
  destruct (size a =? 0)%nat; [auto with ignores|].
  apply ignores_mbind; [auto with ignores | intros m].
  apply ignores_mbind; [| auto with ignores].
  now apply ignores_bootstrap with (seed := seed).
Qed.

(** A run that is assumed to return cannot have taken a raising branch. *)
Ltac fails H := cbv beta iota in H; discriminate H.

(** ** The runs of [bootstrap] and [bootstrap_mean], case by case *)


Lemma bootstrap_mean_run (data : pyobj) (n_bootstrap : Z) (ci : F) (seed : Z)
    (g : rng_state) :
  bootstrap_mean data n_bootstrap ci seed g =
  match to_ndarray data with
  | Raise e => (Raise e, g)
  | Ok a =>
      if (size a =? 0)%nat then (Raise (mk_exn ValueError "Input data is empty"), g)
      else
        match np_mean (ravel a) with
        | Raise e => (Raise e, g)
        | Ok m =>
            match bootstrap (bootstrap_mean_args (ravel a) n_bootstrap seed ci) g with
            | (Ok c, g') => (Ok (mk_result m (low c) (high c)), g')
            | (Raise e, g') => (Raise e, g')
            end
        end
  end.
Proof.
  unfold bootstrap_mean, mbind, lift, mraise, mret.
  destruct (to_ndarray data) as [a|e]; [|reflexivity].
  destruct (size a =? 0)%nat; [reflexivity|].
  destruct (np_mean (ravel a)) as [m|e]; [|reflexivity].
  destruct (bootstrap _ g) as [[c|e] g']; reflexivity.
Qed.

(** The summary without an interval never fails on numbers. *)
Lemma desc_stats_run_no_ci (xs : list F) (n_bootstrap : Z) (ci_level : F)
    (n_digits : nat) (seed : Z) (g : rng_state) :
  pretty_print_desc_stats (FloatSeq xs) n_bootstrap false ci_level n_digits seed g =
  (Ok ("$M = " ++ format_f n_digits (mean_f xs)
       ++ ", Mdn = " ++ format_f n_digits (np_median_f xs)
       ++ ", SD = " ++ format_f n_digits (std_f xs 1) ++ "$"), g).
Proof. reflexivity. Qed.

(** C1. [bootstrap_mean] is a function of its arguments alone: called
    twice with the same data, number of resamples, level and seed, from
    whatever states of numpy's global generator, it yields the same
    outcome (the same mean, lower and upper bound, or the same error),
    and it leaves the global generator untouched. *)
Theorem bootstrap_mean_deterministic (data : pyobj) (n_bootstrap : Z) (ci : F)
    (seed : Z) (g1 g2 : rng_state) :
  fst (bootstrap_mean data n_bootstrap ci seed g1)
  = fst (bootstrap_mean data n_bootstrap ci seed g2)
  /\ snd (bootstrap_mean data n_bootstrap ci seed g1) = g1.
Proof.
  destruct (ignores_bootstrap_mean data n_bootstrap ci seed) as [r Hr].
  rewrite (Hr g1), (Hr g2). split; reflexivity.
Qed.

(** C2, amended.  [bootstrap_mean] rejects an empty sample, in any of
    the containers it accepts, with [ValueError], before numpy or scipy
    compute anything.  [pretty_print_desc_stats] has no such check: on
    an empty sample and without an interval it returns the formatted
    string, with the mean [0.0/0], the median numpy gives for no
    element, and the deviation [sqrt(0.0/0)]. *)
Theorem empty_sample_outcomes :
  (forall (data : pyobj) (a : ndarray) (n_bootstrap : Z) (ci : F) (seed : Z)
          (g : rng_state),
      to_ndarray data = Ok a -> size a = 0%nat ->
      bootstrap_mean data n_bootstrap ci seed g
      = (Raise (mk_exn ValueError "Input data is empty"), g))
  /\ (forall (n_bootstrap : Z) (ci_level : F) (n_digits : nat) (seed : Z)
             (g : rng_state),
      pretty_print_desc_stats (FloatSeq []) n_bootstrap false ci_level n_digits seed g
      = (Ok ("$M = " ++ format_f n_digits (fdiv (of_int 0) (of_int 0))
             ++ ", Mdn = " ++ format_f n_digits (np_median_f [])
             ++ ", SD = " ++ format_f n_digits (fsqrt (fdiv (of_int 0) (of_int 0)))
             ++ "$"), g)).
Proof.
  split.
  - intros data a n_bootstrap ci seed g Ha Hsize.
    rewrite bootstrap_mean_run, Ha, Hsize. reflexivity.
  - intros. rewrite desc_stats_run_no_ci. reflexivity.
Qed.


(** C6. For a non-empty sample, the 'mean' that [bootstrap_mean]
    returns is [np.mean] of the sample itself (flattened, not
    resampled): the call returns whenever that mean and scipy's
    [bootstrap] do, with that mean as its point estimate; so two calls
    on the same sample that differ in the seed, the number of resamples
    or the level return the same 'mean'. *)
Theorem point_estimate_is_sample_mean (data : pyobj) (a : ndarray) :
  to_ndarray data = Ok a ->
  size a <> 0%nat ->
  forall (n_bootstrap : Z) (ci : F) (seed : Z) (g : rng_state),
    (forall m c,
        np_mean (ravel a) = Ok m ->
        fst (bootstrap (bootstrap_mean_args (ravel a) n_bootstrap seed ci) g) = Ok c ->
        bootstrap_mean data n_bootstrap ci seed g = (Ok (mk_result m (low c) (high c)), g))
    /\ (forall r g',
          bootstrap_mean data n_bootstrap ci seed g = (Ok r, g') ->
          np_mean (ravel a) = Ok (mean r))
    /\ (forall r g' n_bootstrap2 ci2 seed2 g2 r2 g2',
          bootstrap_mean data n_bootstrap ci seed g = (Ok r, g') ->
          bootstrap_mean data n_bootstrap2 ci2 seed2 g2 = (Ok r2, g2') ->
          mean r2 = mean r).
Proof.
  intros Ha Hsize n_bootstrap ci seed g.
  assert (Hmean : forall n c s h h' q,
             bootstrap_mean data n c s h = (Ok q, h') -> np_mean (ravel a) = Ok (mean q)).
  { intros n c s h h' q Hq. rewrite bootstrap_mean_run, Ha in Hq.
    destruct (size a =? 0)%nat; [fails Hq|].
    destruct (np_mean (ravel a)) as [m|e]; [|fails Hq].
    destruct (bootstrap _ h) as [[k|e] h1]; [|fails Hq].
    inversion Hq; subst. reflexivity. }
  repeat split.
  - intros m c Hm Hc. rewrite bootstrap_mean_run, Ha.
    apply Nat.eqb_neq in Hsize. rewrite Hsize, Hm.
    destruct (ignores_bootstrap (bootstrap_mean_args (ravel a) n_bootstrap seed ci)
                seed eq_refl) as [rb Hb].
    rewrite Hb in Hc |- *. cbn [fst] in Hc. subst rb. reflexivity.
  - intros r g'. apply Hmean.
  - intros r g' n2 ci2 seed2 g2 r2 g2' Hrun Hrun2.
    apply Hmean in Hrun. apply Hmean in Hrun2. congruence.
Qed.

(** C7, amended.  The standard deviation in the summary is numpy's with
    [ddof=1]: for a sample of [n >= 2] numbers the divisor of the sum
    of squared deviations is [n - 1].  The function does not check the
    size of the sample: with fewer than two numbers (and no interval)
    it still returns the string, the divisor being [0]. *)
Theorem sample_sd_divisor (xs : list F) (n_bootstrap : Z) (ci_level : F)
    (n_digits : nat) (seed : Z) (g : rng_state) :
  let summary divisor :=
    "$M = " ++ format_f n_digits (mean_f xs)
    ++ ", Mdn = " ++ format_f n_digits (np_median_f xs)
    ++ ", SD = " ++ format_f n_digits (fsqrt (fdiv (sum_sq_dev xs) (of_int divisor)))
    ++ "$" in
  let run :=
    pretty_print_desc_stats (FloatSeq xs) n_bootstrap false ci_level n_digits seed g in
  ((2 <= List.length xs)%nat -> run = (Ok (summary (count xs - 1)), g))
  /\ ((List.length xs < 2)%nat -> run = (Ok (summary 0), g)).
Proof.
  intros summary run. unfold run, summary. rewrite desc_stats_run_no_ci.
  unfold std_f, count.
  split; intros Hlen.
  - rewrite Z.max_l by lia. reflexivity.
  - rewrite Z.max_r by lia. reflexivity.
Qed.

(** C8, amended.  [bootstrap_mean] raises [ValueError] for a value that
    is not a Series, a list or a numpy array, and for an empty one.  It
    does not check that the sample is numeric: a non-empty sample of
    strings passes both checks and fails when numpy takes its mean,
    with numpy's [TypeError].  On a non-empty sample of numbers the
    function fails exactly when scipy's [bootstrap] raises, with that
    error, and otherwise returns. *)
Theorem bootstrap_mean_failure_modes (data : pyobj) (n_bootstrap : Z) (ci : F)
    (seed : Z) (g : rng_state) :
  let run := bootstrap_mean data n_bootstrap ci seed g in
  (forall type_name, data = PyOther type_name ->
     run = (Raise (mk_exn ValueError
                     "Input data must be a Pandas Series, list, or numpy array"), g))
  /\ (forall a, to_ndarray data = Ok a -> size a = 0%nat ->
        run = (Raise (mk_exn ValueError "Input data is empty"), g))
  /\ (forall a ss, to_ndarray data = Ok a -> size a <> 0%nat -> buf a = StrSeq ss ->
        run = (Raise (mk_exn TypeError (exn_msg flexible_type)), g))
  /\ (forall a xs, to_ndarray data = Ok a -> size a <> 0%nat -> buf a = FloatSeq xs ->
        run = (match fst (bootstrap (bootstrap_mean_args (ravel a) n_bootstrap seed ci) g)
               with
               | Ok c => Ok (mk_result (mean_f xs) (low c) (high c))
               | Raise e => Raise e
               end, g)).
Proof.
  intros run. unfold run. rewrite bootstrap_mean_run.
  repeat split.
  - intros type_name ->. reflexivity.
  - intros a -> ->. reflexivity.
  - intros a ss -> Hsize Hbuf. apply Nat.eqb_neq in Hsize. rewrite Hsize.
    unfold np_mean, ravel. cbn [buf]. rewrite Hbuf. reflexivity.
  - intros a xs -> Hsize Hbuf. apply Nat.eqb_neq in Hsize. rewrite Hsize.
    unfold np_mean, ravel at 1. cbn [buf]. rewrite Hbuf.
    destruct (ignores_bootstrap (bootstrap_mean_args (ravel a) n_bootstrap seed ci)
                seed eq_refl) as [rb Hb].
    rewrite Hb. cbn [fst]. destruct rb; reflexivity.
Qed.

End StatsProperties.

(* ================================================================== *)
(** * Concrete runs *)

Section LoaderRuns.
Import Loader.

(** C10 at a path that does not exist. *)
Lemma open_error_propagates_witness :
  read_csv_robust disk "missing.csv" "," 10000
  = ([EvOpen "missing.csv"], Raise (no_such_file "missing.csv")).
Proof. apply open_error_propagates. reflexivity. Defined.





End LoaderRuns.

Section StatsRuns.
Import Stats IEEE.
Local Open Scope float_scope.

(** The reference implementation on small inputs. *)
Example format_float_rounds_to_even :
  format_float 2 0.125 = "0.12"%string
  /\ format_float 2 0.375 = "0.38"%string
  /\ format_float 0 2.5 = "2"%string
  /\ format_float 1 (-1234.5) = "-1234.5"%string
  /\ format_float 3 (0 / 0) = "nan"%string.
Proof. repeat split. Qed.

Example median_of_small_samples :
  median [3; 1; 2] = 2
  /\ median [4; 1; 3; 2] = 2.5
  /\ PrimFloat.is_nan (median []) = true.
Proof. repeat split. Qed.

Example percentile_of_small_samples :
  percentile [5; 1; 4; 2; 3] 50 = Ok 3
  /\ percentile [1; 2; 3; 4] 50 = Ok 2.5
  /\ percentile [1; 2; 3; 4; 5] 2.5 = Ok 0x1.199999999999ap+0 (* 1.1 *)
  /\ percentile [1; 2] 101 = Raise bad_percentile.
Proof. repeat split. Qed.

(** The result of [bootstrap_mean] on the sample 1..5 with 200
    resamples, level 95 and seed 42. *)
Lemma bootstrap_mean_run_200 :
  bootstrap_mean (PyList one_to_five) 200 95 42 after_import
  = (Ok result_200, after_import).
Proof. reflexivity. Qed.

(** The bounds are percentiles of the resampled means and follow the
    draws of the generator, while the point estimate is the mean of the
    sample: with the generator that always draws index 0, the interval
    of the sample 1, 2, 3 collapses to 1 and leaves the mean 2 outside. *)
Example bounds_follow_the_draws :
  fst (bootstrap_mean (sp := stuck_generator) (PyList (FloatSeq [1; 2; 3]))
         1000 95 42 42%Z)
  = Ok (mk_result 2 1 1)
  /\ (2 <=? 1) = false.
Proof. split; reflexivity. Qed.

(** C2 as stated fails for the summary.  On the empty sample, with the
    default arguments (no interval), [pretty_print_desc_stats] raises
    nothing and returns a string of NaNs. *)
Lemma summary_of_empty_sample :
  fst (pretty_print_desc_stats (FloatSeq (fl := binary64) []) 10000 false level 2 42
         after_import)
  = Ok "$M = nan, Mdn = nan, SD = nan$"%string.
Proof. vm_compute. reflexivity. Qed.

(** C2, amended, on the empty list. *)
Lemma empty_sample_outcomes_witness :
  bootstrap_mean (PyList (FloatSeq (fl := binary64) [])) 10000 95 42 after_import
  = (Raise (mk_exn ValueError "Input data is empty"), after_import).
Proof.
  exact (proj1 (@empty_sample_outcomes binary64 reference)
           (PyList (FloatSeq (fl := binary64) []))
           (np_array (FloatSeq (fl := binary64) [])) 10000%Z 95 42%Z after_import
           eq_refl eq_refl).
Defined.



(** C6 on the sample 1..5: the call returns, and its point estimate is
    the mean of the sample, exactly 3. *)
Lemma point_estimate_is_sample_mean_witness :
  bootstrap_mean (PyList one_to_five) 200 95 42 after_import
  = (Ok result_200, after_import)
  /\ np_mean (ravel (np_array one_to_five)) = Ok (mean result_200)
  /\ mean result_200 = 3.
Proof.
  assert (Hsize : size (np_array one_to_five) <> 0%nat) by discriminate.
  split; [exact bootstrap_mean_run_200|].
  split; [|reflexivity].
  exact (proj1 (proj2 (@point_estimate_is_sample_mean binary64 reference
                         (PyList one_to_five) (np_array one_to_five) eq_refl Hsize
                         200%Z 95 42%Z after_import))
           result_200 after_import bootstrap_mean_run_200).
Defined.

(** C7 as stated fails.  On a sample of one number, with the default
    arguments, [pretty_print_desc_stats] raises nothing: the deviation
    it prints is NaN. *)
Lemma summary_of_single_value :
  fst (pretty_print_desc_stats (FloatSeq (fl := binary64) [5]) 10000 false level 2 42
         after_import)
  = Ok "$M = 5.00, Mdn = 5.00, SD = nan$"%string.
Proof. vm_compute. reflexivity. Qed.

(** C7, amended, on five numbers: the sum of squared deviations is 50,
    the divisor 4, the deviation the square root of 12.5. *)
Lemma sample_sd_divisor_witness :
  pretty_print_desc_stats (FloatSeq (fl := binary64) [1; 2; 3; 4; 10]) 10000 false
    level 2 42 after_import
  = (Ok "$M = 4.00, Mdn = 3.00, SD = 3.54$"%string, after_import).
Proof.
  etransitivity.
  - refine (proj1 (@sample_sd_divisor binary64 reference [1; 2; 3; 4; 10] 10000%Z
                     level 2%nat 42%Z after_import) _).
    simpl. lia.
  - vm_compute. reflexivity.
Defined.

(** C8 as stated fails.  A list of strings is not rejected as invalid
    input: it passes the two checks of [bootstrap_mean] and the error
    that comes out is numpy's [TypeError], not [ValueError]. *)
Lemma strings_raise_type_error :
  exists e,
    fst (bootstrap_mean (PyList (fl := binary64) (StrSeq ["a"; "b"]%string))
           10000 95 42 after_import)
    = Raise e
    /\ exn_class e = TypeError
    /\ exn_class e <> ValueError.
Proof. eexists. repeat split. discriminate. Qed.

(** C8, amended, on the sample 1..5: the call returns, as scipy's does. *)
Lemma bootstrap_mean_failure_modes_witness :
  bootstrap_mean (PyList one_to_five) 200 95 42 after_import
  = (Ok result_200, after_import).
Proof.
  etransitivity.
  - refine (proj2 (proj2 (proj2
             (@bootstrap_mean_failure_modes binary64 reference
                (PyList one_to_five) 200%Z 95 42%Z after_import)))
             (np_array one_to_five) [1; 2; 3; 4; 5] eq_refl _ eq_refl).
    discriminate.
  - reflexivity.
Defined.

End StatsRuns.

Local Open Scope nat_scope.
Local Open Scope string_scope.

(* ================================================================== *)
(** * Properties of the text operations *)

Section TextProperties.
Import Text.

(** Case analysis over the 256 characters. *)
Ltac each_char c := destruct c as [[] [] [] [] [] [] [] []]; vm_compute; try reflexivity.

Lemma append_assoc (a b c : string) : (a ++ b) ++ c = a ++ b ++ c.
Proof. induction a as [|x a IH]; simpl; [reflexivity | now rewrite IH]. Qed.

Lemma append_empty_r (a : string) : a ++ "" = a.
Proof. induction a as [|x a IH]; simpl; [reflexivity | now rewrite IH]. Qed.

Lemma length_append (a b : string) :
  String.length (a ++ b) = (String.length a + String.length b)%nat.
Proof. induction a as [|x a IH]; simpl; [reflexivity | now rewrite IH]. Qed.

Lemma prefix_cons (a b : ascii) (s1 s2 : string) :
  String.prefix (String a s1) (String b s2) = Ascii.eqb a b && String.prefix s1 s2.
Proof.
  simpl. destruct (ascii_dec a b) as [->|Hne].
  - now rewrite Ascii.eqb_refl.
  - apply Ascii.eqb_neq in Hne. now rewrite Hne.
Qed.

Lemma prefix_empty (s : string) : String.prefix "" s = true.
Proof. now destruct s. Qed.

Lemma has_char_append (c : ascii) (a b : string) :
  has_char c (a ++ b) = has_char c a || has_char c b.
Proof.
  induction a as [|x a IH]; simpl; [reflexivity|].
  now rewrite IH, orb_assoc.
Qed.

(** *** Case changes *)

Lemma cased_char_separator (b : bool) (c : ascii) :
  let c' := if b then to_lower c else to_upper c in
  Ascii.eqb c' " " = Ascii.eqb c " " /\ Ascii.eqb c' "_" = Ascii.eqb c "_"
  /\ to_lower c' = to_lower c.
Proof. destruct b; each_char c; repeat split. Qed.

Lemma upper_is_not_lower_or_digit (c : ascii) :
  is_upper c = true -> is_lower c || is_digit c = false.
Proof. each_char c; intros H; try reflexivity; discriminate H. Qed.

Lemma letters_title_from (b : bool) (s : string) :
  letters (title_from b s) = letters s.
Proof.
  revert b. induction s as [|c s IH]; intros b; simpl; [reflexivity|].
  destruct (cased_char_separator b c) as (Hsp & Hus & Hlow).
  cbv zeta in Hsp, Hus, Hlow. rewrite Hsp, Hus, Hlow, IH. reflexivity.
Qed.

Lemma length_title_from (b : bool) (s : string) :
  String.length (title_from b s) = String.length s.
Proof. revert b. induction s as [|c s IH]; intros b; simpl; [reflexivity | now rewrite IH]. Qed.

Lemma has_underscore_title_from (b : bool) (s : string) :
  has_char "_" (title_from b s) = has_char "_" s.
Proof.
  revert b. induction s as [|c s IH]; intros b; simpl; [reflexivity|].
  destruct (cased_char_separator b c) as (_ & Hus & _).
  cbv zeta in Hus. rewrite Hus, IH. reflexivity.
Qed.

(** *** [replace] *)

(** One step of the replacement of a single character. *)
Lemma replace_char_step (a : ascii) (new : string) (c : ascii) (rest : string) :
  replace_skip (String a "") new 0 (String c rest) =
  if Ascii.eqb a c then new ++ replace_skip (String a "") new 0 rest
  else String c (replace_skip (String a "") new 0 rest).
Proof.
  cbn [replace_skip]. rewrite prefix_cons, prefix_empty, andb_true_r. reflexivity.
Qed.

Lemma has_char_replace_char (a : ascii) (new s : string) :
  has_char a new = false -> has_char a (replace (String a "") new s) = false.
Proof.
  intros Hnew. unfold replace.
  induction s as [|c s IH]; [reflexivity|].
  rewrite replace_char_step. destruct (Ascii.eqb a c) eqn:Hac.
  - now rewrite has_char_append, Hnew, IH.
  - cbn [has_char]. rewrite Ascii.eqb_sym, Hac, IH. reflexivity.
Qed.

(** Deleting the occurrences of a text brings in no character. *)
Lemma has_char_delete (c : ascii) (old : string) (skip : nat) (s : string) :
  has_char c s = false -> has_char c (replace_skip old "" skip s) = false.
Proof.
  revert skip. induction s as [|d s IH]; intros skip Hs; [reflexivity|].
  cbn [has_char] in Hs. apply orb_false_iff in Hs as [Hd Hs].
  cbn [replace_skip]. destruct skip as [|k]; [|now apply IH].
  destruct (String.prefix old (String d s)).
  - cbn [append]. now apply IH.
  - cbn [has_char]. rewrite Hd. now apply IH.
Qed.

Lemma letters_underscore_to_space (s : string) :
  letters (replace "_" " " s) = letters s.
Proof.
  unfold replace. induction s as [|c s IH]; [reflexivity|].
  rewrite replace_char_step. destruct (Ascii.eqb "_" c) eqn:Hc.
  - apply Ascii.eqb_eq in Hc. subst c. cbn [append letters]. rewrite IH.
    reflexivity.
  - cbn [letters]. rewrite IH. reflexivity.
Qed.

Lemma length_underscore_to_space (s : string) :
  String.length (replace "_" " " s) = String.length s.
Proof.
  unfold replace. induction s as [|c s IH]; [reflexivity|].
  rewrite replace_char_step. destruct (Ascii.eqb "_" c); cbn [append String.length];
    now rewrite IH.
Qed.

(** *** [sub_camel] *)

Lemma sub_camel_step (c d : ascii) (rest : string) :
  sub_camel (String c (String d rest)) =
  if (is_lower c || is_digit c) && is_upper d
  then String c (String " " (String d (sub_camel rest)))
  else String c (sub_camel (String d rest)).
Proof. reflexivity. Qed.

Lemma camel_boundaries_step (c d : ascii) (rest : string) :
  camel_boundaries (String c (String d rest)) =
  if (is_lower c || is_digit c) && is_upper d
  then S (camel_boundaries (String d rest))
  else camel_boundaries (String d rest).
Proof. reflexivity. Qed.

Lemma letters_step (c : ascii) (rest : string) :
  letters (String c rest) =
  if Ascii.eqb c " " || Ascii.eqb c "_" then letters rest
  else String (to_lower c) (letters rest).
Proof. reflexivity. Qed.

Lemma sub_camel_facts (n : nat) :
  forall s, (String.length s <= n)%nat ->
    letters (sub_camel s) = letters s
    /\ String.length (sub_camel s) = (String.length s + camel_boundaries s)%nat.
Proof.
  induction n as [|n IH]; intros s Hlen.
  - destruct s; [split; reflexivity | simpl in Hlen; lia].
  - destruct s as [|c [|d rest]]; [split; reflexivity | split; reflexivity |].
    cbn [String.length] in Hlen.
    rewrite sub_camel_step, camel_boundaries_step.
    destruct ((is_lower c || is_digit c) && is_upper d) eqn:Hmatch.
    + destruct (IH rest ltac:(lia)) as [Hl Hn].
      apply andb_true_iff in Hmatch as [_ Hd].
      split.
      * rewrite (letters_step c (String " " _)), (letters_step " ").
        rewrite (letters_step c (String d rest)).
        change (Ascii.eqb " " " " || Ascii.eqb " " "_") with true. cbv iota.
        rewrite !(letters_step d), Hl. reflexivity.
      * assert (Hcb : camel_boundaries (String d rest) = camel_boundaries rest).
        { destruct rest as [|e rest']; [reflexivity|].
          rewrite camel_boundaries_step.
          rewrite (upper_is_not_lower_or_digit d Hd). reflexivity. }
        rewrite Hcb. cbn [String.length]. rewrite Hn. lia.
    + destruct (IH (String d rest) ltac:(cbn [String.length]; lia)) as [Hl Hn].
      split.
      * rewrite !(letters_step c), Hl. reflexivity.
      * change (String.length (String c (sub_camel (String d rest))))
          with (S (String.length (sub_camel (String d rest)))).
        rewrite Hn. cbn [String.length]. lia.
Qed.

(** *** [split_on] and the suffix [.tex] *)

Lemma split_on_ends_with_name (dir name : string) :
  has_char "/" name = false ->
  exists field fields,
    split_on "/" (dir ++ "/" ++ name) = ((field :: fields) ++ [name])%list.
Proof.
  intros Hname.
  assert (Hsingle : forall s, has_char "/" s = false -> split_on "/" s = [s]).
  { induction s as [|c s IH]; intros Hs; [reflexivity|].
    cbn [has_char] in Hs. apply orb_false_iff in Hs as [Hc Hs].
    cbn [split_on]. rewrite Hc, (IH Hs). reflexivity. }
  induction dir as [|c dir IH].
  - exists "", []. cbn. now rewrite (Hsingle name Hname).
  - destruct IH as (field & fields & IH).
    change (String c dir ++ "/" ++ name) with (String c (dir ++ "/" ++ name)).
    cbn [split_on]. rewrite IH. destruct (Ascii.eqb c "/").
    + exists "", (field :: fields). reflexivity.
    + exists (String c field), fields. reflexivity.
Qed.

Lemma last_field_of_path (dir name : string) :
  has_char "/" name = false ->
  last_field (split_on "/" (dir ++ "/" ++ name)) = name.
Proof.
  intros Hname. destruct (split_on_ends_with_name dir name Hname) as (f & fs & ->).
  unfold last_field. apply last_last.
Qed.

Lemma last_field_of_name (name : string) :
  has_char "/" name = false -> last_field (split_on "/" name) = name.
Proof.
  intros Hname. unfold last_field.
  assert (Hsingle : split_on "/" name = [name]).
  { induction name as [|c s IH]; [reflexivity|].
    cbn [has_char] in Hname. apply orb_false_iff in Hname as [Hc Hs].
    cbn [split_on]. rewrite Hc, (IH Hs). reflexivity. }
  now rewrite Hsingle.
Qed.

Lemma is_infix_step (sub : string) (c : ascii) (rest : string) :
  is_infix sub (String c rest) =
  if String.prefix sub (String c rest) then true else is_infix sub rest.
Proof. reflexivity. Qed.

(** An occurrence of [.tex] cannot straddle the end of a text and a
    [.tex] put after it. *)
Lemma no_tex_across_the_end (s : string) :
  s <> "" -> String.prefix ".tex" s = false -> String.prefix ".tex" (s ++ ".tex") = false.
Proof.
  intros Hne Hs.
  destruct s as [|c1 [|c2 [|c3 [|c4 s']]]]; [congruence | | | |];
    cbn [append] in *; rewrite ?prefix_cons, ?prefix_empty in *.
  - destruct (Ascii.eqb "." c1); reflexivity.
  - destruct (Ascii.eqb "." c1), (Ascii.eqb "t" c2); reflexivity.
  - destruct (Ascii.eqb "." c1), (Ascii.eqb "t" c2), (Ascii.eqb "e" c3); reflexivity.
  - exact Hs.
Qed.

Lemma delete_tex_suffix (name : string) :
  is_infix ".tex" name = false -> replace ".tex" "" (name ++ ".tex") = name.
Proof.
  unfold replace. induction name as [|c rest IH]; intros Hname; [reflexivity|].
  rewrite is_infix_step in Hname.
  destruct (String.prefix ".tex" (String c rest)) eqn:Hhere; [discriminate|].
  change (String c rest ++ ".tex") with (String c (rest ++ ".tex")).
  cbn [replace_skip].
  change (String c (rest ++ ".tex")) with (String c rest ++ ".tex").
  rewrite (no_tex_across_the_end (String c rest)) by (congruence || assumption).
  now rewrite (IH Hname).
Qed.

Lemma has_char_tex (name : string) :
  has_char "/" name = false -> has_char "/" (name ++ ".tex") = false.
Proof. intros H. now rewrite has_char_append, H. Qed.

End TextProperties.

(* ================================================================== *)
(** * Properties of [clean_vars] *)

Section CleaningProperties.
Import Text Cleaning.

Lemma clean_vars_title (s : string) :
  clean_vars s "title" = Returns (Some (title (replace "_" " " (sub_camel s)))).
Proof. reflexivity. Qed.

(** X1. [clean_vars] returns a string for [how = 'title'] only.  The
    two other options its assertion admits, 'lowercase' and
    'uppercase', match none of the branches ('lower' and 'upper' are
    what those test for), so the function returns [None]; every other
    value of [how], 'lower' and 'upper' included, fails the assertion. *)
Theorem clean_vars_modes (s how : string) :
  (how = "title" -> exists t, clean_vars s how = Returns (Some t))
  /\ (how = "lowercase" \/ how = "uppercase" -> clean_vars s how = Returns None)
  /\ (how <> "title" -> how <> "lowercase" -> how <> "uppercase" ->
      clean_vars s how = AssertionError "Bad option!! see docs")
  /\ (forall t, clean_vars s how = Returns (Some t) -> how = "title").
Proof.
  unfold clean_vars, options. cbn [existsb].
  destruct (String.eqb_spec how "title") as [->|Ht];
    [|destruct (String.eqb_spec how "lowercase") as [->|Hl];
      [|destruct (String.eqb_spec how "uppercase") as [->|Hu]]];
    cbn; repeat split; intros;
    repeat match goal with H : _ \/ _ |- _ => destruct H end;
    try congruence; try discriminate; eauto.
Qed.

(** X2. The title form of a name holds no underscore. *)
Theorem clean_vars_no_underscore (s t : string) :
  ascii_text s = true ->
  clean_vars s "title" = Returns (Some t) ->
  has_char "_" t = false.
Proof.
  intros _ H. rewrite clean_vars_title in H.
  assert (Ht : t = title (replace "_" " " (sub_camel s))) by congruence.
  subst t. clear H.
  unfold title. rewrite has_underscore_title_from.
  now apply has_char_replace_char.
Qed.

(** X3. [clean_vars] changes nothing but case and separators: without
    its spaces and underscores, and in lower case, the result reads as
    the name it was given. *)
Theorem clean_vars_keeps_letters (s t : string) :
  ascii_text s = true ->
  clean_vars s "title" = Returns (Some t) ->
  letters t = letters s.
Proof.
  intros _ H. rewrite clean_vars_title in H.
  assert (Ht : t = title (replace "_" " " (sub_camel s))) by congruence.
  subst t. clear H.
  unfold title. rewrite letters_title_from, letters_underscore_to_space.
  apply (sub_camel_facts (String.length s)). lia.
Qed.

(** X4. The result is longer than the name by one character, a space,
    for each place where a lower case letter or a digit is followed by
    an upper case letter; nothing else is added or removed. *)
Theorem clean_vars_length (s t : string) :
  ascii_text s = true ->
  clean_vars s "title" = Returns (Some t) ->
  String.length t = (String.length s + camel_boundaries s)%nat.
Proof.
  intros _ H. rewrite clean_vars_title in H.
  assert (Ht : t = title (replace "_" " " (sub_camel s))) by congruence.
  subst t. clear H.
  unfold title. rewrite length_title_from, length_underscore_to_space.
  apply (sub_camel_facts (String.length s)). lia.
Qed.

End CleaningProperties.

(* ================================================================== *)
(** * Properties of [stargazer2latex] *)

Section LatexProperties.
Import Text Latex.
Context {pkg : StargazerPkg}.

Variables (open_w : string -> result unit) (star : Star) (filename : string)
          (add_ci display_mod : bool).

Lemma strip_latex_no_underscore (rendered : string) :
  has_char "_" (strip_latex rendered) = false.
Proof.
  unfold strip_latex. unfold replace at 1.
  apply has_char_delete. now apply has_char_replace_char.
Qed.

(** The object after a run, whether or not the file could be written. *)
Lemma star_after_run :
  star_after (stargazer2latex open_w star filename add_ci display_mod) =
  set_table_label (table_label_of filename)
    (set_title (or_default (title_text star) default_title
                ++ (if add_ci then ci_note else ""))
       (if add_ci then show_confidence_intervals true star else star)).
Proof. unfold stargazer2latex. destruct (open_w filename); reflexivity. Qed.

Lemma label_of_run :
  In (EvLabel (table_label_of filename))
     (trace (stargazer2latex open_w star filename add_ci display_mod)).
Proof.
  unfold stargazer2latex.
  destruct (open_w filename), add_ci, display_mod; cbn; auto 10.
Qed.

(** X5. Whatever the package renders, the text written to the file is
    the rendering of the object as the run leaves it (retitled and
    relabelled), with every underscore gone: the only file written is
    [filename], and its text holds no underscore. *)
Theorem written_text_has_no_underscore (path content : string) :
  let run := stargazer2latex open_w star filename add_ci display_mod in
  In (path, content) (written (trace run)) ->
  path = filename
  /\ content = strip_latex (render_latex (star_after run))
  /\ has_char "_" content = false.
Proof.
  intros run Hin. unfold run, stargazer2latex in *.
  destruct (open_w filename), add_ci, display_mod; cbn in Hin |- *;
    try contradiction; destruct Hin as [Hin|[]]; injection Hin as <- <-;
    repeat split; apply strip_latex_no_underscore.
Qed.

(** X7. The function changes the caller's object before it opens the
    file: when [open] fails, the error is raised and nothing is written,
    but the object is left retitled and relabelled exactly as by a run
    that succeeds. *)
Theorem failed_write_leaves_object_changed (e : exn) :
  open_w filename = Raise e ->
  let run := stargazer2latex open_w star filename add_ci display_mod in
  returned run = Raise e
  /\ written (trace run) = []
  /\ star_after run
     = star_after (stargazer2latex always_writable star filename add_ci display_mod).
Proof.
  intros Hopen run. unfold run, stargazer2latex. rewrite Hopen.
  destruct add_ci, display_mod; repeat split.
Qed.

End LatexProperties.

Section LatexLabels.
Import Text Latex.
Context {pkg : StargazerPkg}.

(** X6. For a file [name.tex], in a directory or not, whose [name] holds
    neither a slash nor [.tex], the label given to the table is
    [name]. *)
Theorem table_label_is_file_name (open_w : string -> result unit) (star : Star)
    (dir name : string) (add_ci display_mod : bool) :
  has_char "/" name = false ->
  is_infix ".tex" name = false ->
  In (EvLabel name)
     (trace (stargazer2latex open_w star (dir ++ "/" ++ name ++ ".tex")
               add_ci display_mod))
  /\ In (EvLabel name)
        (trace (stargazer2latex open_w star (name ++ ".tex") add_ci display_mod)).
Proof.
  intros Hslash Htex.
  assert (Hdir : table_label_of (dir ++ "/" ++ name ++ ".tex") = name).
  { unfold table_label_of.
    rewrite (last_field_of_path dir (name ++ ".tex")) by now apply has_char_tex.
    now apply delete_tex_suffix. }
  assert (Hname : table_label_of (name ++ ".tex") = name).
  { unfold table_label_of.
    rewrite (last_field_of_name (name ++ ".tex")) by now apply has_char_tex.
    now apply delete_tex_suffix. }
  split.
  - rewrite <- Hdir at 1. apply label_of_run.
  - rewrite <- Hname at 1. apply label_of_run.
Qed.

(** X8. With [add_ci], every call appends the note on the confidence
    intervals to the title the object has: a second call on the same
    object leaves the note in the title twice.  Without [add_ci] the
    second call leaves the title as the first set it.  (For a package
    whose [title] stores the text that [title_text] reads, and where
    assigning the label does not touch it.) *)
Theorem second_call_repeats_the_note (open_w1 open_w2 : string -> result unit)
    (star : Star) (filename1 filename2 : string) (display1 display2 : bool) :
  (forall text s, title_text (set_title text s) = Some text) ->
  (forall label s, title_text (set_table_label label s) = title_text s) ->
  let base := or_default (title_text star) default_title in
  let first add_ci := stargazer2latex open_w1 star filename1 add_ci display1 in
  let second add_ci :=
    stargazer2latex open_w2 (star_after (first add_ci)) filename2 add_ci display2 in
  title_text (star_after (first true)) = Some (base ++ ci_note)
  /\ title_text (star_after (second true)) = Some ((base ++ ci_note) ++ ci_note)
  /\ title_text (star_after (first false)) = Some base
  /\ title_text (star_after (second false)) = Some base.
Proof.
  intros Hstored Hlabel base first second. unfold second, first.
  rewrite !star_after_run, !Hlabel, !Hstored. fold base.
  assert (Hnote : or_default (Some (base ++ ci_note)) default_title = base ++ ci_note)
    by (destruct base; reflexivity).
  assert (Hbase : or_default (Some base) default_title = base).
  { unfold base. destruct (title_text star) as [[|c r]|]; reflexivity. }
  rewrite Hnote, !append_empty_r, Hbase. repeat split.
Qed.

End LatexLabels.

(* ================================================================== *)
(** * More properties of the loader *)

Section LoaderExtras.
Import Loader Calls.

Variables (w : World) (file_path sep : string) (num_bytes : Z).

(** X9. Every call of [pandas.read_csv] that [read_csv_robust] makes is
    for the file and the separator it was given, with bad lines
    skipped; it makes at most three, and none when the file cannot be
    opened. *)
Theorem every_call_is_for_the_file :
  let t := fst (read_csv_robust w file_path sep num_bytes) in
  Forall (fun c => rc_path c = file_path /\ rc_sep c = sep
                   /\ rc_on_bad_lines c = BadSkip) (calls t)
  /\ (List.length (calls t) <= 3)%nat
  /\ (raised (fs_open_rb w file_path) -> calls t = []).
Proof.
  destruct (fs_open_rb w file_path) as [content|e] eqn:Hopen.
  - pose proof (read_csv_robust_run w file_path sep num_bytes content Hopen) as Hrun.
    cbv zeta in Hrun |- *. rewrite Hrun.
    destruct (pd_read_csv w (read_call file_path sep _)) as [df1|e1];
      [|destruct (pd_read_csv w (read_call file_path sep (Some "utf-8"))) as [df2|e2];
        [|destruct (pd_read_csv w (read_call file_path sep (Some "ISO-8859-1")))
            as [df3|e3]]];
      cbn [fst calls List.length]; (split; [repeat constructor | split; [lia|]]);
      intros [e0 He0]; discriminate He0.
  - cbv zeta. unfold read_csv_robust, detect_encoding. rewrite Hopen.
    cbn. repeat split; auto.
Qed.



End LoaderExtras.

(* ================================================================== *)
(** * More properties of the statistics *)

Section StatsExtras.
Import Stats.
Context {fl : Float64} {sp : SciPy fl}.

Lemma ignores_desc_stats (data : seq) (n_bootstrap : Z) (ci : bool) (ci_level : F)
    (n_digits : nat) (seed : Z) :
  ignores_global (pretty_print_desc_stats data n_bootstrap ci ci_level n_digits seed).
Proof.
  unfold pretty_print_desc_stats.
  repeat (apply ignores_mbind; [apply ignores_lift | intros ?]).
  apply ignores_mbind; [|intros ?; apply ignores_mret].
  destruct ci; [|apply ignores_mret].
  apply ignores_mbind; [now apply ignores_bootstrap with (seed := seed) | intros ?].
  apply ignores_mbind; [apply ignores_lift | intros ?; apply ignores_mret].
Qed.

(** X12. [pretty_print_desc_stats], with or without the interval,
    neither reads nor advances numpy's global generator: its outcome is
    the same from every state of that generator, which it leaves as it
    found it. *)
Theorem summary_leaves_global_generator (data : seq) (n_bootstrap : Z) (ci : bool)
    (ci_level : F) (n_digits : nat) (seed : Z) (g1 g2 : rng_state) :
  fst (pretty_print_desc_stats data n_bootstrap ci ci_level n_digits seed g1)
  = fst (pretty_print_desc_stats data n_bootstrap ci ci_level n_digits seed g2)
  /\ snd (pretty_print_desc_stats data n_bootstrap ci ci_level n_digits seed g1) = g1.
Proof.
  destruct (ignores_desc_stats data n_bootstrap ci ci_level n_digits seed) as [r Hr].
  rewrite (Hr g1), (Hr g2). split; reflexivity.
Qed.

(** X13. [bootstrap_mean] sees its input through [ravel] only: a
    Series, a list and an array of any shape that hold the same elements
    in the same order give the same outcome. *)
Theorem container_does_not_matter (data1 data2 : pyobj) (a1 a2 : ndarray)
    (n_bootstrap : Z) (ci : F) (seed : Z) (g : rng_state) :
  to_ndarray data1 = Ok a1 ->
  to_ndarray data2 = Ok a2 ->
  buf a1 = buf a2 ->
  bootstrap_mean data1 n_bootstrap ci seed g = bootstrap_mean data2 n_bootstrap ci seed g.
Proof.
  intros H1 H2 Hbuf. rewrite !bootstrap_mean_run, H1, H2.
  assert (Hravel : ravel a1 = ravel a2) by (unfold ravel, size; now rewrite Hbuf).
  assert (Hsize : size a1 = size a2) by (unfold size; now rewrite Hbuf).
  now rewrite Hravel, Hsize.
Qed.

End StatsExtras.

(* ================================================================== *)
(** * Properties of [statsmodels2latex] *)

Section RegressionProperties.
Import Stats Text Regression.
Context {fl : Float64} {ft : FloatText fl}.

Variables (beta_digits se_digits p_digits ci_digits : nat) (print_sci_not : bool).

Local Notation "'line'" :=
  (line_of beta_digits se_digits p_digits ci_digits print_sci_not).
Local Notation "'run'" :=
  (statsmodels2latex beta_digits se_digits p_digits ci_digits print_sci_not).

Lemma print_all_until_failure (errors pvals : string -> result F)
    (intervals : string -> result (F * F)) (done : list (string * F))
    (lines : list string) (rest : list (string * F)) :
  Forall2 (fun row text => line errors pvals intervals row = Ok text) done lines ->
  print_all beta_digits se_digits p_digits ci_digits print_sci_not
    errors pvals intervals (done ++ rest)%list
  = ((lines ++ fst (print_all beta_digits se_digits p_digits ci_digits print_sci_not
                      errors pvals intervals rest))%list,
     snd (print_all beta_digits se_digits p_digits ci_digits print_sci_not
            errors pvals intervals rest)).
Proof.
  induction 1 as [|row text done lines Hrow _ IH].
  - cbn [app]. now destruct (print_all _ _ _ _ _ _ _ _ rest).
  - cbn [app print_all]. rewrite Hrow, IH. reflexivity.
Qed.

(** X14. [statsmodels2latex] prints one line per parameter, in the order
    of [params], and returns [None].  It prints as it goes: when a
    lookup raises for a parameter, the lines of the parameters before
    it are already printed and the error is raised.  When one of the
    four attributes is missing it prints nothing and raises
    [ValueError]. *)
Theorem prints_until_first_failure (model : Fitted)
    (errors pvals : string -> result F) (intervals : string -> result (F * F))
    (done : list (string * F)) (lines : list string) :
  bse model = Some errors -> pvalues model = Some pvals ->
  conf_int model = Some intervals ->
  Forall2 (fun row text => line errors pvals intervals row = Ok text) done lines ->
  (params model = Some done -> run model = (lines, Ok tt))
  /\ (forall row rest e,
        params model = Some (done ++ row :: rest)%list ->
        line errors pvals intervals row = Raise e ->
        run model = (lines, Raise e))
  /\ (forall incomplete,
        params incomplete = None \/ bse incomplete = None
        \/ pvalues incomplete = None \/ conf_int incomplete = None ->
        run incomplete = ([], Raise missing_methods)).
Proof.
  intros Hbse Hp Hci Hlines. repeat split.
  - intros Hparams. unfold statsmodels2latex. rewrite Hparams, Hbse, Hp, Hci.
    rewrite <- (app_nil_r done), (print_all_until_failure _ _ _ _ _ _ Hlines).
    cbn. now rewrite app_nil_r.
  - intros row rest e Hparams Hrow. unfold statsmodels2latex.
    rewrite Hparams, Hbse, Hp, Hci, (print_all_until_failure _ _ _ _ _ _ Hlines).
    cbn [print_all]. rewrite Hrow. cbn. now rewrite app_nil_r.
  - intros incomplete H. unfold statsmodels2latex.
    destruct (params incomplete), (bse incomplete), (pvalues incomplete),
      (conf_int incomplete); try reflexivity;
      repeat match goal with H : _ \/ _ |- _ => destruct H end; discriminate.
Qed.

Lemma safe_name_escapes (after_backslash : bool) (s : string) :
  underscores_escaped_from after_backslash (safe_name s) = true.
Proof.
  unfold safe_name, replace. revert after_backslash.
  induction s as [|c s IH]; intros b; [reflexivity|].
  rewrite replace_char_step. destruct (Ascii.eqb "_" c) eqn:Hc.
  - cbn. apply IH.
  - cbn [underscores_escaped_from]. rewrite Ascii.eqb_sym, Hc. cbn. apply IH.
Qed.

Lemma prefix_append (a b c : string) :
  String.prefix (a ++ b) (a ++ c) = String.prefix b c.
Proof.
  induction a as [|x a IH]; [reflexivity|].
  cbn [append]. now rewrite prefix_cons, Ascii.eqb_refl, IH.
Qed.

Lemma safe_name_head (s : string) : String.prefix "_" (safe_name s) = false.
Proof.
  unfold safe_name, replace. destruct s as [|c s]; [reflexivity|].
  rewrite replace_char_step. destruct (Ascii.eqb "_" c) eqn:Hc; [reflexivity|].
  now rewrite prefix_cons, Hc.
Qed.

Lemma safe_name_unescaped (s : string) : replace "\_" "_" (safe_name s) = s.
Proof.
  induction s as [|c s IH]; [reflexivity|].
  unfold safe_name, replace in IH |- *.
  rewrite replace_char_step. destruct (Ascii.eqb "_" c) eqn:Hc.
  - apply Ascii.eqb_eq in Hc. subst c. cbn. now rewrite prefix_empty, IH.
  - cbn [replace_skip]. rewrite prefix_cons.
    pose proof (safe_name_head s) as Hhead. unfold safe_name, replace in Hhead.
    rewrite Hhead, andb_false_r. now rewrite IH.
Qed.

(** X15. Each printed line begins with the name of its parameter in
    which every underscore has been given a backslash, followed by a
    colon; taking those backslashes away gives the name back. *)
Theorem printed_name_is_escaped (errors pvals : string -> result F)
    (intervals : string -> result (F * F)) (param_name : string) (beta : F)
    (text : string) :
  line errors pvals intervals (param_name, beta) = Ok text ->
  String.prefix (safe_name param_name ++ ": ") text = true
  /\ underscores_escaped (safe_name param_name) = true
  /\ replace "\_" "_" (safe_name param_name) = param_name.
Proof.
  intros Hline. repeat split.
  - unfold line_of in Hline.
    destruct (errors param_name) as [se|e]; [|discriminate].
    destruct (pvals param_name) as [p|e]; [|discriminate].
    destruct (intervals param_name) as [[lo hi]|e]; [|discriminate].
    assert (Htext : text = summary beta_digits se_digits p_digits ci_digits
                             print_sci_not param_name beta se p lo hi) by congruence.
    rewrite Htext. unfold summary. rewrite prefix_append. reflexivity.
  - apply safe_name_escapes.
  - apply safe_name_unescaped.
Qed.

End RegressionProperties.

(* ================================================================== *)
(** * Concrete runs of the other functions *)

Section MoreRuns.
Import Text Cleaning Latex Loader Calls Shelf Stats IEEE Regression IEEEText.

(** X2 on the name of a column. *)
Lemma clean_vars_no_underscore_witness : has_char "_" "Ai Add Wc" = false.
Proof. apply (clean_vars_no_underscore "ai_add_wc"); reflexivity. Defined.

(** X3 on a name in camel case with a digit. *)
Lemma clean_vars_keeps_letters_witness :
  letters "Prompt Type2 B X" = letters "PromptType2B_x".
Proof. apply (clean_vars_keeps_letters "PromptType2B_x"); reflexivity. Defined.

(** X4 on the same name: two spaces are added (the underscore is only
    changed into one). *)
Lemma clean_vars_length_witness :
  String.length "Prompt Type2 B X" = (String.length "PromptType2B_x" + 2)%nat.
Proof. apply (clean_vars_length "PromptType2B_x"); reflexivity. Defined.

(** X1 on the three kinds of option. *)
Lemma clean_vars_modes_witness :
  clean_vars "ai_add_wc" "lowercase" = Returns None
  /\ clean_vars "ai_add_wc" "lower" = AssertionError "Bad option!! see docs".
Proof.
  split.
  - apply (proj1 (proj2 (clean_vars_modes "ai_add_wc" "lowercase"))). now left.
  - apply (proj1 (proj2 (proj2 (clean_vars_modes "ai_add_wc" "lower")))); discriminate.
Defined.

(** An object without a title, and the file of the docstring. *)
Let fresh : plain_star := mk_star None false None.

(** X5 on the docstring's file: the label keeps its underscores in the
    object and loses them in the file. *)
Lemma written_text_has_no_underscore_witness :
  has_char "_"
    "\caption{OLS regressions of additions and removals. 95\% CIs in parentheses.}\label{regautoaddrem} PromptType[B] & isconstrained"
  = false.
Proof.
  refine (proj2 (proj2 (written_text_has_no_underscore (pkg := plain) always_writable
                          fresh "../tables/reg_auto_add_rem.tex" true false
                          "../tables/reg_auto_add_rem.tex" _ _))).
  cbn. left. reflexivity.
Defined.

(** X6 on the docstring's file. *)
Lemma table_label_is_file_name_witness :
  In (EvLabel "reg_auto_add_rem")
     (trace (stargazer2latex (pkg := plain) always_writable fresh
               "../tables/reg_auto_add_rem.tex" true false)).
Proof.
  exact (proj1 (table_label_is_file_name (pkg := plain) always_writable fresh
                  "../tables" "reg_auto_add_rem" true false eq_refl eq_refl)).
Defined.

(** X7 with a directory that does not exist. *)
Lemma failed_write_leaves_object_changed_witness :
  star_after (stargazer2latex (pkg := plain) (fun path => Raise (no_such_file path))
                fresh "nowhere/reg.tex" true false)
  = mk_star (Some "OLS regressions of additions and removals. 95\% CIs in parentheses.")
      true (Some "reg").
Proof.
  refine (eq_trans (proj2 (proj2 (failed_write_leaves_object_changed (pkg := plain)
            (fun path => Raise (no_such_file path)) fresh "nowhere/reg.tex" true false
            (no_such_file "nowhere/reg.tex") eq_refl))) _).
  reflexivity.
Defined.

(** X8 on the plain object. *)
Lemma second_call_repeats_the_note_witness :
  @title_text plain
    (star_after (stargazer2latex (pkg := plain) always_writable
       (star_after (stargazer2latex (pkg := plain) always_writable fresh "a.tex" true false))
       "a.tex" true false))
  = Some "OLS regressions of additions and removals. 95\% CIs in parentheses. 95\% CIs in parentheses.".
Proof.
  refine (eq_trans (proj1 (proj2 (second_call_repeats_the_note (pkg := plain)
            always_writable always_writable fresh "a.tex" "a.tex" false false _ _))) _).
  - reflexivity.
  - reflexivity.
  - reflexivity.
Defined.



(** X13: the list 1..5 and the same numbers as a 5 x 1 array. *)
Lemma container_does_not_matter_witness :
  bootstrap_mean (PyList one_to_five) 200 95%float 42 after_import
  = bootstrap_mean (NpArray (mk_array [5; 1]%nat one_to_five)) 200 95%float 42
      after_import.
Proof.
  exact (container_does_not_matter (sp := reference) (PyList one_to_five)
           (NpArray (mk_array [5; 1]%nat one_to_five)) _ _ 200%Z 95%float 42%Z
           after_import eq_refl eq_refl eq_refl).
Defined.

(** X14: the standard error of the second parameter is missing, and the
    line of the first is printed before the lookup raises. *)
Lemma prints_until_first_failure_witness :
  statsmodels2latex 2 2 3 2 false fitted_short
  = (["is\_constrained: $\beta = 1.50$, $SE = 0.50$, $p <0.001$, $95\% CI = [0.50, 2.50]$"],
     Raise (mk_exn LookupError "Intercept")).
Proof.
  refine (proj1 (proj2 (prints_until_first_failure 2 2 3 2 false fitted_short
            _ _ _ [("is_constrained", 1.5%float)] _ eq_refl eq_refl eq_refl _))
            ("Intercept", 0.25%float) [] _ eq_refl eq_refl).
  repeat constructor.
Defined.

(** X15 on the first line of the full model. *)
Lemma printed_name_is_escaped_witness :
  String.prefix "is\_constrained: "
    "is\_constrained: $\beta = 1.50$, $SE = 0.50$, $p <0.001$, $95\% CI = [0.50, 2.50]$"
  = true.
Proof.
  refine (proj1 (printed_name_is_escaped 2 2 3 2 false
                   (lookup [("is_constrained", 0.5); ("Intercept", 0.125)]%float)
                   (lookup [("is_constrained", 0x1p-11); ("Intercept", 0.25)]%float)
                   (lookup [("is_constrained", (0.5, 2.5)); ("Intercept", (0, 0.5))]%float)
                   "is_constrained" 1.5%float _ _)).
  reflexivity.
Defined.

End MoreRuns.
